(** * order-bot-backend: the recommendation resolver and its HTTP handlers

    A shallow embedding of [server.js].  The file holds two variants of the
    server: the deployed one (first in the file, exported as the application)
    and an earlier one that lacks the geographic endpoints.  The deployed
    variant is embedded in [Module Server], the earlier one in
    [Module Variant]; the parts of the JavaScript runtime both rely on
    (values, strings, [JSON.parse], [Array.prototype.sort]) come first. *)

From Stdlib Require Import List String Ascii Bool Arith ZArith QArith Lia.
From Stdlib Require Import Permutation Sorted Lqa Qround.
Import ListNotations.

Set Warnings "-register-all".
Local Close Scope Q_scope.
Local Open Scope list_scope.
Local Open Scope string_scope.

(** ** Values of the runtime *)

(** Numbers are exact rationals plus [NaN]: the order of two finite numbers
    and the sign of their difference, which is all the server looks at, do
    not depend on binary64 rounding.  A number read from a text is rounded
    to the nearest binary64 value first ([binary64] below), so two literals
    that denote the same double are the same number here.  The two
    infinities are stood for by plus and minus 2 ^ 1024, the first magnitude
    past the finite doubles: the difference of an infinity and a finite
    number, or of the two infinities, has the sign it has in binary64, and
    the difference of an infinity with itself is not positive ([NaN] there,
    zero here).  The negative zero is not told from zero. *)
Inductive number : Type :=
| NaN
| Num (q : Q).

Inductive value : Type :=
| VUndefined
| VNull
| VBool (b : bool)
| VNum (n : number)
| VStr (s : string)
| VArr (elems : list value)
| VObj (props : list (string * value)).

(** A plain object: its own properties in insertion order. *)
Definition object : Type := list (string * value).

(** [o.k]: [undefined] when [k] is not a property of [o]. *)
Fixpoint get (k : string) (o : object) : value :=
  match o with
  | [] => VUndefined
  | (k', v) :: rest => if String.eqb k k' then v else get k rest
  end.

(** [o.k = v]: overwrite in place, or append a new property. *)
Fixpoint set (k : string) (v : value) (o : object) : object :=
  match o with
  | [] => [(k, v)]
  | (k', v') :: rest =>
      if String.eqb k k' then (k', v) :: rest else (k', v') :: set k v rest
  end.

Definition is_zero (n : number) : bool :=
  match n with
  | NaN => false
  | Num q => Qeq_bool q 0
  end.

(** ToBoolean. *)
Definition truthy (v : value) : bool :=
  match v with
  | VUndefined | VNull => false
  | VBool b => b
  | VNum NaN => false
  | VNum n => negb (is_zero n)
  | VStr EmptyString => false
  | VStr _ => true
  | VArr _ | VObj _ => true
  end.

(** An optional string parameter ([undefined] when absent) as a value. *)
Definition of_param (p : option string) : value :=
  match p with
  | Some s => VStr s
  | None => VUndefined
  end.

(** [a === b].  Arrays and objects are compared by reference; the server
    only ever compares values read from two different documents, which are
    never the same reference. *)
Definition strict_eq (a b : value) : bool :=
  match a, b with
  | VUndefined, VUndefined => true
  | VNull, VNull => true
  | VBool x, VBool y => Bool.eqb x y
  | VNum (Num x), VNum (Num y) => Qeq_bool x y
  | VStr x, VStr y => String.eqb x y
  | _, _ => false
  end.

(** [a || b]. *)
Definition or_else (a b : value) : value := if truthy a then a else b.

(** ** Errors and completions *)

Record error : Type := mkError { name : string; message : string }.

Definition SyntaxError (m : string) : error := mkError "SyntaxError" m.
Definition TypeError (m : string) : error := mkError "TypeError" m.
Definition Error (m : string) : error := mkError "Error" m.
(** Reading an identifier that no enclosing scope binds. *)
Definition ReferenceError (x : string) : error :=
  mkError "ReferenceError" (x ++ " is not defined").

Inductive completion (A : Type) : Type :=
| Normal (a : A)
| Throw (e : error).
Arguments Normal {A} a.
Arguments Throw {A} e.

(** A computation of the server: the prompts it sent to the generative model,
    in order, and how it completed. *)
Record run (A : Type) : Type := mkRun { calls : list string; outcome : completion A }.
Arguments mkRun {A} calls outcome.
Arguments calls {A} r.
Arguments outcome {A} r.

Definition ret {A} (a : A) : run A := mkRun [] (Normal a).
Definition throw {A} (e : error) : run A := mkRun [] (Throw e).
Definition lift {A} (c : completion A) : run A := mkRun [] c.

Definition bind {A B} (m : run A) (k : A -> run B) : run B :=
  match outcome m with
  | Normal a => let r := k a in mkRun (calls m ++ calls r)%list (outcome r)
  | Throw e => mkRun (calls m) (Throw e)
  end.

(** [try { body } catch (error) { handler }]. *)
Definition try_catch {A} (body : run A) (handler : error -> run A) : run A :=
  match outcome body with
  | Normal _ => body
  | Throw e => let r := handler e in mkRun (calls body ++ calls r)%list (outcome r)
  end.

Declare Scope run_scope.
Delimit Scope run_scope with run.
Notation "x <- m ;; k" := (bind m (fun x => k))
  (at level 61, m at next level, right associativity) : run_scope.
Notation "m ;;; k" := (bind m (fun _ => k))
  (at level 61, right associativity) : run_scope.

(** Evaluating the identifier [x] where the names of [scope] are bound. *)
Definition reference (scope : list string) (x : string) : run unit :=
  if existsb (String.eqb x) scope then ret tt else throw (ReferenceError x).

(** ** Strings *)

Definition LF : string := String "010"%char EmptyString.
Definition quote : string := String "034"%char EmptyString.

(** The characters [String.prototype.trim] and the regular-expression class
    [\s] remove, within ASCII: tab, line feed, vertical tab, form feed,
    carriage return and space. *)
Definition is_space (c : ascii) : bool :=
  let n := nat_of_ascii c in
  (((9 <=? n) && (n <=? 13)) || (n =? 32))%nat.

(** [String.prototype.toLowerCase], on the ASCII letters. *)
Definition lower_char (c : ascii) : ascii :=
  let n := nat_of_ascii c in
  if ((65 <=? n) && (n <=? 90))%nat then ascii_of_nat (n + 32) else c.

Fixpoint toLowerCase (s : string) : string :=
  match s with
  | EmptyString => EmptyString
  | String c rest => String (lower_char c) (toLowerCase rest)
  end.

(** [s.includes(sub)]. *)
Fixpoint includes (s sub : string) : bool :=
  String.prefix sub s ||
  match s with
  | EmptyString => false
  | String _ rest => includes rest sub
  end.

Fixpoint drop (n : nat) (s : string) : string :=
  match n, s with
  | S k, String _ rest => drop k rest
  | _, _ => s
  end.

Fixpoint skip_spaces (s : string) : string :=
  match s with
  | String c rest => if is_space c then skip_spaces rest else s
  | EmptyString => EmptyString
  end.

Definition reverse (s : string) : string :=
  string_of_list_ascii (rev (list_ascii_of_string s)).

(** [s.trim()]. *)
Definition trim (s : string) : string :=
  reverse (skip_spaces (reverse (skip_spaces s))).

(** The opening and closing mark of a fenced block. *)
Definition fence : string := "```".

(** [content.replace(/```(json|JSON)\n|\n```/g, '')]: every non-overlapping
    occurrence, from the left, of one of the three delimiters is removed.
    [skip] counts the characters of the current occurrence still to drop. *)
Definition delimiters : list string :=
  [fence ++ "json" ++ LF; fence ++ "JSON" ++ LF; LF ++ fence].

Fixpoint remove_delimiters (skip : nat) (s : string) : string :=
  match s with
  | EmptyString => EmptyString
  | String c rest =>
      match skip with
      | S k => remove_delimiters k rest
      | O =>
          match find (fun d => String.prefix d s) delimiters with
          | Some d => remove_delimiters (String.length d - 1) rest
          | None => String c (remove_delimiters 0 rest)
          end
      end
  end.

(** [content.match(/```(?:json)?\s*([\s\S]*?)\s*```/)], the first group.
    The match starts at the first fence; the optional tag and the spaces
    after it are taken greedily, and the group stops at the first position
    from which spaces and a fence follow.  (Giving back the tag or some of
    the spaces never makes a match where there was none.) *)
Fixpoint after_first_fence (s : string) : option string :=
  if String.prefix fence s then Some (drop 3 s)
  else match s with
       | EmptyString => None
       | String _ rest => after_first_fence rest
       end.

Definition skip_tag (s : string) : string :=
  if String.prefix "json" s then drop 4 s else s.

Fixpoint up_to_closing_fence (s : string) : option string :=
  if String.prefix fence (skip_spaces s) then Some EmptyString
  else match s with
       | EmptyString => None
       | String c rest => option_map (String c) (up_to_closing_fence rest)
       end.

Definition fenced_block (content : string) : option string :=
  match after_first_fence content with
  | Some rest => up_to_closing_fence (skip_spaces (skip_tag rest))
  | None => None
  end.

(** ** Decimal literals *)

Definition is_digit (c : ascii) : bool :=
  let n := nat_of_ascii c in ((48 <=? n) && (n <=? 57))%nat.

Definition digit_value (c : ascii) : Z := Z.of_nat (nat_of_ascii c - 48).

Fixpoint span_digits (cs : list ascii) : list ascii * list ascii :=
  match cs with
  | c :: rest =>
      if is_digit c
      then let (ds, tl) := span_digits rest in (c :: ds, tl)
      else ([], cs)
  | [] => ([], [])
  end.

Definition digits_value (ds : list ascii) : Z :=
  fold_left (fun acc c => acc * 10 + digit_value c)%Z ds 0%Z.

(** [m * 10 ^ scale], exactly. *)
Definition scaled (m scale : Z) : Q :=
  if (0 <=? scale)%Z then inject_Z (m * 10 ^ scale)
  else Qmake m (Z.to_pos (10 ^ (- scale))).

Definition is_nil {A} (l : list A) : bool :=
  match l with [] => true | _ => false end.

(** A whole lexeme read as a decimal number.  With [strict] the grammar is
    that of a JSON number (no [+], no leading zero, digits on both sides of
    the point); without it, that of a decimal string literal of the
    language, which ToNumber accepts. *)
Definition decimal (strict : bool) (cs : list ascii) : option Q :=
  let '(neg, cs1) :=
    match cs with
    | "-"%char :: r => (true, r)
    | "+"%char :: r => if strict then (false, cs) else (false, r)
    | _ => (false, cs)
    end in
  let (ip, cs2) := span_digits cs1 in
  let '(point, fp, cs3) :=
    match cs2 with
    | "."%char :: r => let (f, tl) := span_digits r in (true, f, tl)
    | _ => (false, [], cs2)
    end in
  let '(exp_ok, ex, cs4) :=
    match cs3 with
    | ("e" | "E")%char :: r =>
        let '(eneg, r') :=
          match r with
          | "-"%char :: r' => (true, r')
          | "+"%char :: r' => (false, r')
          | _ => (false, r)
          end in
        let (ed, tl) := span_digits r' in
        (negb (is_nil ed),
         if eneg then (- digits_value ed)%Z else digits_value ed, tl)
    | _ => (true, 0%Z, cs3)
    end in
  let mantissa_ok :=
    if strict
    then negb (is_nil ip)
         && match ip with "0"%char :: _ :: _ => false | _ => true end
         && (negb point || negb (is_nil fp))
    else negb (is_nil ip) || negb (is_nil fp) in
  if mantissa_ok && exp_ok && is_nil cs4
  then
    let m := digits_value (ip ++ fp)%list in
    Some (scaled (if neg then - m else m)%Z (ex - Z.of_nat (List.length fp))%Z)
  else None.

(** ** Rounding to binary64 *)

(** [n / d] rounded to the nearest integer, ties to the even one, for
    [n >= 0] and [d > 0]. *)
Definition round_half_even (n d : Z) : Z :=
  let k := (n / d)%Z in
  match (2 * (n mod d) ?= d)%Z with
  | Lt => k
  | Gt => (k + 1)%Z
  | Eq => if Z.even k then k else (k + 1)%Z
  end.

(** The exponent [e] with [2 ^ e <= n / d < 2 ^ (e + 1)], for [n, d > 0]. *)
Definition binade (n d : Z) : Z :=
  let e0 := (Z.log2 n - Z.log2 d)%Z in
  let reached :=
    if (0 <=? e0)%Z then (d * 2 ^ e0 <=? n)%Z else (d <=? n * 2 ^ (- e0))%Z in
  if reached then e0 else (e0 - 1)%Z.

(** [m * 2 ^ e], exactly. *)
Definition scaled2 (m e : Z) : Q :=
  if (0 <=? e)%Z then inject_Z (m * 2 ^ e)
  else Qmake m (Z.to_pos (2 ^ (- e))).

(** The binary64 value nearest to [q], ties to the even significand: 53
    bits of significand for a normal number, multiples of [2 ^ -1074] below
    [2 ^ -1022], and plus or minus [2 ^ 1024], which stands for the
    infinity, from the middle between the largest finite double and
    [2 ^ 1024] on. *)
Definition binary64 (q : Q) : Q :=
  let n := Z.abs (Qnum q) in
  let d := Zpos (Qden q) in
  if (n =? 0)%Z then 0%Q
  else
    let e := binade n d in
    let magnitude :=
      if (1024 <=? e)%Z then inject_Z (2 ^ 1024)
      else
        let quantum := Z.max (e - 52) (- 1074) in
        let m := if (0 <=? quantum)%Z
                 then round_half_even n (d * 2 ^ quantum)
                 else round_half_even (n * 2 ^ (- quantum)) d in
        scaled2 m quantum in
    if (Qnum q <? 0)%Z then Qopp magnitude else magnitude.

(** ToNumber.  Exact on [undefined], [null], booleans and numbers; a decimal
    string is rounded to binary64; other strings (hexadecimal and the like)
    and objects are taken to [NaN]. *)
Definition toNumber (v : value) : number :=
  match v with
  | VUndefined => NaN
  | VNull => Num 0
  | VBool b => Num (if b then 1 else 0)
  | VNum n => n
  | VStr s =>
      match trim s with
      | EmptyString => Num 0
      | t => match decimal false (list_ascii_of_string t) with
             | Some q => Num (binary64 q)
             | None => NaN
             end
      end
  | VArr _ | VObj _ => NaN
  end.

(** [a - b] on numbers. *)
Definition minus (a b : number) : number :=
  match a, b with
  | Num x, Num y => Num (x - y)
  | _, _ => NaN
  end.

(** [n / d] for a non-zero constant [d]. *)
Definition divided_by (n : number) (d : Q) : number :=
  match n with
  | Num x => Num (x / d)
  | NaN => NaN
  end.

(** The comparator result [n] is greater than zero. *)
Definition positive (n : number) : bool :=
  match n with
  | Num q => negb (Qle_bool q 0)
  | NaN => false
  end.

(** ** [JSON.parse]

    The text is cut into tokens by a small automaton over its characters, and
    the tokens are assembled by a second automaton with an explicit stack of
    the arrays and objects still open; both read their input once, so the
    parser is total.  Strings are byte strings: a [\u] escape of the basic
    plane is stored as its UTF-8 bytes.  A number literal denotes the
    binary64 value nearest to it. *)
Module Json.

Inductive token : Type :=
| TLBracket | TRBracket | TLBrace | TRBrace | TComma | TColon
| TString (s : string)
| TNumber (q : Q)
| TTrue | TFalse | TNull.

Inductive lex_mode : Type :=
| LIdle
| LWord (acc : list ascii)
| LStr (acc : list ascii)
| LEsc (acc : list ascii)
| LUni (acc : list ascii) (hex : list ascii).

Definition is_ws (c : ascii) : bool :=
  let n := nat_of_ascii c in
  ((n =? 32) || (n =? 9) || (n =? 10) || (n =? 13))%nat.

Definition is_letter (c : ascii) : bool :=
  let n := nat_of_ascii c in
  (((65 <=? n) && (n <=? 90)) || ((97 <=? n) && (n <=? 122)))%nat.

(** The characters of a number or of a literal name. *)
Definition is_word_char (c : ascii) : bool :=
  is_digit c || is_letter c
  || Ascii.eqb c "+" || Ascii.eqb c "-" || Ascii.eqb c ".".

Definition word_token (w : list ascii) : option token :=
  let s := string_of_list_ascii w in
  if String.eqb s "true" then Some TTrue
  else if String.eqb s "false" then Some TFalse
  else if String.eqb s "null" then Some TNull
  else option_map (fun q => TNumber (binary64 q)) (decimal true w).

Definition punctuation (c : ascii) : option token :=
  if Ascii.eqb c "[" then Some TLBracket
  else if Ascii.eqb c "]" then Some TRBracket
  else if Ascii.eqb c "{" then Some TLBrace
  else if Ascii.eqb c "}" then Some TRBrace
  else if Ascii.eqb c "," then Some TComma
  else if Ascii.eqb c ":" then Some TColon
  else None.

(** One character read between tokens. *)
Definition lex_idle (c : ascii) : option (lex_mode * list token) :=
  if is_ws c then Some (LIdle, [])
  else match punctuation c with
       | Some t => Some (LIdle, [t])
       | None =>
           if Ascii.eqb c "034" then Some (LStr [], [])
           else if is_word_char c then Some (LWord [c], [])
           else None
       end.

Definition escape (c : ascii) : option ascii :=
  if Ascii.eqb c "034" then Some "034"%char
  else if Ascii.eqb c "\" then Some "\"%char
  else if Ascii.eqb c "/" then Some "/"%char
  else if Ascii.eqb c "b" then Some "008"%char
  else if Ascii.eqb c "f" then Some "012"%char
  else if Ascii.eqb c "n" then Some "010"%char
  else if Ascii.eqb c "r" then Some "013"%char
  else if Ascii.eqb c "t" then Some "009"%char
  else None.

Definition hex_value (c : ascii) : option nat :=
  let n := nat_of_ascii c in
  if is_digit c then Some (n - 48)
  else if ((97 <=? n) && (n <=? 102))%nat then Some (n - 87)
  else if ((65 <=? n) && (n <=? 70))%nat then Some (n - 55)
  else None.

Definition hex_number (hs : list ascii) : nat :=
  fold_left (fun acc c => 16 * acc + match hex_value c with Some d => d | None => 0 end)
            hs 0.

Definition utf8 (cp : nat) : list ascii :=
  if (cp <? 128)%nat then [ascii_of_nat cp]
  else if (cp <? 2048)%nat
       then [ascii_of_nat (192 + cp / 64); ascii_of_nat (128 + cp mod 64)]
       else [ascii_of_nat (224 + cp / 4096);
             ascii_of_nat (128 + (cp / 64) mod 64);
             ascii_of_nat (128 + cp mod 64)].

Fixpoint lex (m : lex_mode) (cs : list ascii) : option (list token) :=
  match cs with
  | [] =>
      match m with
      | LIdle => Some []
      | LWord w => option_map (fun t => [t]) (word_token (rev w))
      | _ => None
      end
  | c :: rest =>
      match m with
      | LIdle =>
          match lex_idle c with
          | Some (m', ts) => option_map (app ts) (lex m' rest)
          | None => None
          end
      | LWord w =>
          if is_word_char c then lex (LWord (c :: w)) rest
          else match word_token (rev w), lex_idle c with
               | Some t, Some (m', ts) =>
                   option_map (fun l => t :: ts ++ l)%list (lex m' rest)
               | _, _ => None
               end
      | LStr acc =>
          if Ascii.eqb c "034"
          then option_map (cons (TString (string_of_list_ascii (rev acc))))
                          (lex LIdle rest)
          else if Ascii.eqb c "\" then lex (LEsc acc) rest
          else if (nat_of_ascii c <? 32)%nat then None
          else lex (LStr (c :: acc)) rest
      | LEsc acc =>
          match escape c with
          | Some e => lex (LStr (e :: acc)) rest
          | None => if Ascii.eqb c "u" then lex (LUni acc []) rest else None
          end
      | LUni acc hex =>
          match hex_value c with
          | None => None
          | Some _ =>
              let hex' := (hex ++ [c])%list in
              if (List.length hex' =? 4)%nat
              then lex (LStr (rev (utf8 (hex_number hex')) ++ acc)%list) rest
              else lex (LUni acc hex') rest
          end
      end
  end.

(** An array or object still open: the elements read so far (last first), or
    the properties read so far and the key whose value is awaited. *)
Inductive frame : Type :=
| FArr (elems : list value)
| FObj (props : object) (key : option string).

Inductive state : Type :=
| PValue      (* a value must follow *)
| PArrFirst   (* after an opening bracket: a value or the closing bracket *)
| PObjFirst   (* after an opening brace: a key or the closing brace *)
| PObjKey     (* after a comma in an object: a key *)
| PColon      (* after a key *)
| PAfter      (* after a value inside an array or object *)
| PDone (v : value).

(** A complete value is handed to the innermost open array or object. *)
Definition deliver (v : value) (stack : list frame) : option (state * list frame) :=
  match stack with
  | [] => Some (PDone v, [])
  | FArr elems :: up => Some (PAfter, FArr (v :: elems) :: up)
  | FObj props (Some k) :: up => Some (PAfter, FObj (set k v props) None :: up)
  | FObj _ None :: _ => None
  end.

Definition scalar (t : token) : option value :=
  match t with
  | TString s => Some (VStr s)
  | TNumber q => Some (VNum (Num q))
  | TTrue => Some (VBool true)
  | TFalse => Some (VBool false)
  | TNull => Some VNull
  | _ => None
  end.

Definition start_value (t : token) (stack : list frame) : option (state * list frame) :=
  match t with
  | TLBracket => Some (PArrFirst, FArr [] :: stack)
  | TLBrace => Some (PObjFirst, FObj [] None :: stack)
  | _ => match scalar t with
         | Some v => deliver v stack
         | None => None
         end
  end.

Definition key (t : token) (stack : list frame) : option (state * list frame) :=
  match t, stack with
  | TString k, FObj props None :: up => Some (PColon, FObj props (Some k) :: up)
  | _, _ => None
  end.

Definition close (t : token) (stack : list frame) : option (state * list frame) :=
  match t, stack with
  | TRBracket, FArr elems :: up => deliver (VArr (rev elems)) up
  | TRBrace, FObj props None :: up => deliver (VObj props) up
  | _, _ => None
  end.

Definition step (st : state) (stack : list frame) (t : token)
  : option (state * list frame) :=
  match st with
  | PValue => start_value t stack
  | PArrFirst =>
      match t with
      | TRBracket => close t stack
      | _ => start_value t stack
      end
  | PObjFirst =>
      match t with
      | TRBrace => close t stack
      | _ => key t stack
      end
  | PObjKey => key t stack
  | PColon =>
      match t with
      | TColon => Some (PValue, stack)
      | _ => None
      end
  | PAfter =>
      match t, stack with
      | TComma, FArr _ :: _ => Some (PValue, stack)
      | TComma, FObj _ _ :: _ => Some (PObjKey, stack)
      | _, _ => close t stack
      end
  | PDone _ => None
  end.

Fixpoint assemble (st : state) (stack : list frame) (ts : list token) : option value :=
  match ts with
  | [] => match st with
          | PDone v => Some v
          | _ => None
          end
  | t :: rest =>
      match step st stack t with
      | Some (st', stack') => assemble st' stack' rest
      | None => None
      end
  end.

Definition parse (text : string) : completion value :=
  match lex LIdle (list_ascii_of_string text) with
  | Some ts =>
      match assemble PValue [] ts with
      | Some v => Normal v
      | None => Throw (SyntaxError "Unexpected token in JSON")
      end
  | None => Throw (SyntaxError "Unexpected token in JSON")
  end.

End Json.

(** Double quotes are written as apostrophes in the JSON texts below. *)
Fixpoint dq (s : string) : string :=
  match s with
  | EmptyString => EmptyString
  | String c rest => String (if Ascii.eqb c "'" then "034"%char else c) (dq rest)
  end.

(** ** [Array.prototype.sort] with a comparator

    The sort is stable.  For a comparator that is consistent (a total
    preorder) every stable sort returns the same array, which is what the
    insertion below computes; for other comparators the language leaves the
    order to the implementation. *)
Section Sort.
Context {A : Type}.
Variable comparator : A -> A -> number.

(** [x] stood before every element of the sorted [l]: it moves right past
    the elements it must follow and stops before the first other one. *)
Fixpoint insert (x : A) (l : list A) : list A :=
  match l with
  | [] => [x]
  | y :: rest =>
      if positive (comparator x y) then y :: insert x rest else x :: l
  end.

Definition sort (l : list A) : list A := fold_right insert [] l.
End Sort.

(** ** Data of the server *)

(** An item of the menu: the identifier and title the resolver reads, and the
    remaining properties of the document, passed through as they are. *)
Record MenuItem : Type := mkItem {
  id : string;
  productTitle : string;
  fields : object
}.

(** What a handler sends back: [res.json(...)], after [res.status(...)] if
    any. *)
Inductive payload : Type :=
| Recommendations (recommendations : list MenuItem)
| Items (items : list MenuItem)
| Places (places : list object)
| Failure (error : string) (details : option string).

Record response : Type := mkResponse { status : nat; body : payload }.

Definition json (p : payload) : response := mkResponse 200 p.

(** [v.k] for [k] one of [id], [relevance]: reading a property of [null] or
    [undefined] throws, an object gives its property, and any other value
    has no such property. *)
Definition property (k : string) (v : value) : value :=
  match v with
  | VObj props => get k props
  | _ => VUndefined
  end.

Definition nullish (v : value) : bool :=
  match v with
  | VNull | VUndefined => true
  | _ => false
  end.

Definition member (k : string) (v : value) : completion value :=
  if nullish v
  then Throw (TypeError ("Cannot read properties of null (reading '" ++ k ++ "')"))
  else Normal (property k v).

(** [(a, b) => b.relevance - a.relevance], on elements that are not [null]. *)
Definition by_relevance (a b : value) : number :=
  minus (toNumber (property "relevance" b)) (toNumber (property "relevance" a)).

(** [recommendedItems.sort((a, b) => b.relevance - a.relevance)].  Only an
    array has a [sort] method.  The comparator is applied to every element of
    an array of two or more, so a [null] among them makes it throw; with
    fewer than two elements it is never applied. *)
Definition sort_by_relevance (recommendedItems : value) : completion (list value) :=
  match recommendedItems with
  | VArr elems =>
      if (2 <=? List.length elems)%nat && existsb nullish elems
      then Throw (TypeError "Cannot read properties of null (reading 'relevance')")
      else Normal (sort by_relevance elems)
  | VNull | VUndefined =>
      Throw (TypeError "Cannot read properties of null (reading 'sort')")
  | _ => Throw (TypeError "recommendedItems.sort is not a function")
  end.

(** [menu.find(menuItem => menuItem.id === item.id)]: [item.id] is read once
    per menu item visited, so not at all on an empty menu. *)
Fixpoint find_item (menu : list MenuItem) (item : value) : completion (option MenuItem) :=
  match menu with
  | [] => Normal None
  | menuItem :: rest =>
      match member "id" item with
      | Normal i =>
          if strict_eq (VStr (id menuItem)) i then Normal (Some menuItem)
          else find_item rest item
      | Throw e => Throw e
      end
  end.

(** [recommendedItems.map(item => menu.find(...))]. *)
Fixpoint map_find (menu : list MenuItem) (items : list value)
  : completion (list (option MenuItem)) :=
  match items with
  | [] => Normal []
  | item :: rest =>
      match find_item menu item with
      | Normal found =>
          match map_find menu rest with
          | Normal l => Normal (found :: l)
          | Throw e => Throw e
          end
      | Throw e => Throw e
      end
  end.

(** [.filter(Boolean)] on the results of [find]: [undefined] is dropped. *)
Fixpoint present {A} (l : list (option A)) : list A :=
  match l with
  | [] => []
  | Some a :: rest => a :: present rest
  | None :: rest => present rest
  end.

(** [item.productTitle.toLowerCase().includes(query.toLowerCase())]. *)
Definition matches (query : string) (item : MenuItem) : bool :=
  includes (toLowerCase (productTitle item)) (toLowerCase query).

(** ** The deployed server *)
Module Server.

(** Names bound at the top level of the module, with the runtime's own that
    the module uses. *)
Definition module_scope : list string :=
  ["express"; "cors"; "bodyParser"; "GoogleGenerativeAI"; "geolib"; "admin";
   "app"; "port"; "db"; "genAI"; "getPersonalizedRecommendations";
   "shuffleArray"; "require"; "module"; "process"; "console"; "Buffer";
   "JSON"; "Math"; "Boolean"; "parseFloat"].

Section Resolver.
(** The generative model: [model.generateContent(prompt)] followed by
    [result.response.text()]; either may fail. *)
Variable generateContent : string -> completion string.
(** [JSON.stringify] of the menu, embedded in the prompt. *)
Variable JSON_stringify : list MenuItem -> string.

Definition ask (prompt : string) : run string :=
  mkRun [prompt] (generateContent prompt).

Definition prompt_for (query : option string) (menu : list MenuItem)
           (mealType : option string) : string :=
  "You are an AI assistant for a food ordering platform. "
  ++ "Given the following menu items: " ++ JSON_stringify menu ++ ", "
  ++ (if truthy (of_param query) then
        "provide a list of up to 5 recommended items that closely match the user's search query: "
        ++ quote ++ match query with Some q => q | None => EmptyString end ++ quote
        ++ ". Prioritize items that contain the query words. "
      else if truthy (of_param mealType) then
        "provide a list of 5 recommended "
        ++ match mealType with Some m => m | None => EmptyString end
        ++ " items. "
      else "provide a list of 5 generally recommended items. ")
  ++ "Format the response as a JSON array of objects with 'id' and 'relevance' properties, where 'relevance' is a number from 0 to 1 indicating how closely the item matches the query or meal type.".

(** The first branch of the [try] block: [Some] when it returns. *)
Definition exact_matches (query : option string) (menu : list MenuItem)
  : option (list MenuItem) :=
  match query with
  | Some q =>
      if truthy (VStr q) then
        let exactMatches := filter (matches q) menu in
        if (0 <? List.length exactMatches)%nat
        then Some (firstn 5 exactMatches)
        else None
      else None
  | None => None
  end.

(** [content.replace(...).trim()]: the markdown delimiters are removed. *)
Definition clean (content : string) : string :=
  trim (remove_delimiters 0 content).

(** The rest of the [try] block. *)
Definition ai_recommendations (query : option string) (menu : list MenuItem)
           (mealType : option string) : run (list MenuItem) :=
  (content <- ask (prompt_for query menu mealType) ;;
   let cleanedContent := clean content in
   recommendedItems <- lift (Json.parse cleanedContent) ;;
   sorted <- lift (sort_by_relevance recommendedItems) ;;
   found <- lift (map_find menu sorted) ;;
   ret (present found))%run.

Definition try_block (query : option string) (menu : list MenuItem)
           (mealType : option string) : run (list MenuItem) :=
  match exact_matches query menu with
  | Some found => ret found
  | None => ai_recommendations query menu mealType
  end.

(** Names the [catch] block can see: its parameter, the parameters of the
    function, and the module's.  [cleanedContent] is a [const] of the [try]
    block and is not among them. *)
Definition catch_scope : list string :=
  ("error" :: "query" :: "menu" :: "mealType" :: module_scope)%list.

(** The [catch] block logs [error], then logs [cleanedContent], then
    returns the empty array. *)
Definition catch_block (error : error) : run (list MenuItem) :=
  (reference catch_scope "cleanedContent" ;;; ret [])%run.

Definition getPersonalizedRecommendations (query : option string)
           (menu : list MenuItem) (mealType : option string)
  : run (list MenuItem) :=
  try_catch (try_block query menu mealType) catch_block.

(** *** POST /api/chat *)

Record chat_body : Type := mkChat {
  chat_message : option string;
  chat_mealType : option string
}.

(** [menuFetch] is what reading the [fs_food_items] collection gives. *)
Definition chat (req : chat_body) (menuFetch : completion (list MenuItem))
  : run response :=
  try_catch
    (if negb (truthy (of_param (chat_message req)))
        && negb (truthy (of_param (chat_mealType req)))
     then throw (Error "Message or meal type is required")
     else
       (menu <- lift menuFetch ;;
        recommendations <-
          getPersonalizedRecommendations (chat_message req) menu (chat_mealType req) ;;
        ret (json (Recommendations recommendations)))%run)
    (fun error =>
       ret (mkResponse 500
              (Failure "An error occurred while processing the chat."
                       (Some (message error))))).

(** *** GET /api/personalized-recommendations *)

(** What the name [calculateDistance] would denote if the module bound
    it. *)
Variable calculateDistance : value -> value -> value -> value -> completion value.

(** Names the callback of [recommendations.map] can see. *)
Definition callback_scope : list string :=
  ("restaurant" :: "item" :: "restaurants" :: "restaurantsSnapshot"
   :: "recommendations" :: "menu" :: "menuSnapshot"
   :: "query" :: "mealType" :: "lat" :: "lon" :: "req" :: "res"
   :: module_scope)%list.

Definition with_distance (d : value) (item : MenuItem) : MenuItem :=
  mkItem (id item) (productTitle item) (set "distance" d (fields item)).

Definition has_coordinates (place : object) : bool :=
  truthy (get "latitude" place) && truthy (get "longitude" place).

(** The callback of [recommendations.map]. *)
Definition attach_distance (lat lon : value) (restaurants : list object)
           (item : MenuItem) : run MenuItem :=
  let restaurant :=
    find (fun r => strict_eq (get "id" r) (get "restaurantId" (fields item)))
         restaurants in
  match restaurant with
  | Some r =>
      if has_coordinates r then
        (reference callback_scope "calculateDistance" ;;;
         d <- lift (calculateDistance lat lon (get "latitude" r) (get "longitude" r)) ;;
         ret (with_distance d item))%run
      else ret item
  | None => ret item
  end.

Fixpoint for_each {A B} (f : A -> run B) (l : list A) : run (list B) :=
  match l with
  | [] => ret []
  | a :: rest => (b <- f a ;; bs <- for_each f rest ;; ret (b :: bs))%run
  end.

(** [hotelsFetch] is what reading the [fs_hotels] collection gives, each
    document with its identifier merged in. *)
Definition personalized_recommendations (query mealType lat lon : option string)
           (menuFetch : completion (list MenuItem))
           (hotelsFetch : completion (list object)) : run response :=
  try_catch
    (menu <- lift menuFetch ;;
     recommendations <- getPersonalizedRecommendations query menu mealType ;;
     enriched <-
       (if truthy (of_param lat) && truthy (of_param lon) then
          restaurants <- lift hotelsFetch ;;
          for_each (attach_distance (of_param lat) (of_param lon) restaurants)
                   recommendations
        else ret recommendations) ;;
     ret (json (Items enriched)))%run
    (fun _ =>
       ret (mkResponse 500
              (Failure "Failed to fetch personalized recommendations" None))).

(** *** GET /api/nearby-hotels *)

Variable parseFloat : value -> number.
(** [geolib.getDistance(from, to)], in metres; it throws on coordinates it
    cannot read. *)
Variable getDistance : number * number -> number * number -> completion number.

(** The callback of [hotels.map]: [None] stands for the [null] of its
    [catch]. *)
Definition nearby_entry (latitude longitude : value) (hotel : object)
  : option object :=
  match getDistance (parseFloat latitude, parseFloat longitude)
                    (parseFloat (get "latitude" hotel),
                     parseFloat (get "longitude" hotel)) with
  | Normal metres =>
      Some [("id", get "id" hotel);
            ("name", or_else (get "hotelName" hotel) (VStr "Unnamed Hotel"));
            ("address", or_else (get "hotelAddress" hotel) (VStr "Address not available"));
            ("phone", or_else (get "hotelPhoneNo" hotel) (VStr "Phone not available"));
            ("type", or_else (get "hotelType" hotel) (VStr "restaurant"));
            ("latitude", get "latitude" hotel);
            ("longitude", get "longitude" hotel);
            ("distance", VNum (divided_by metres 1000))]
  | Throw _ => None
  end.

(** [(a, b) => a.distance - b.distance]. *)
Definition by_distance (a b : object) : number :=
  minus (toNumber (get "distance" a)) (toNumber (get "distance" b)).

Definition nearest (latitude longitude : value) (places : list object)
  : list object :=
  let hotels := filter has_coordinates places in
  firstn 5 (sort by_distance (present (map (nearby_entry latitude longitude) hotels))).

Definition nearby_hotels (latitude longitude : option string)
           (hotelsFetch : completion (list object)) : run response :=
  try_catch
    (places <- lift hotelsFetch ;;
     ret (json (Places (nearest (of_param latitude) (of_param longitude) places))))%run
    (fun _ => ret (mkResponse 500 (Failure "Failed to fetch nearby hotels" None))).

End Resolver.

(** *** The shuffle helper *)
Section Shuffle.
Context {A : Type}.
(** [Math.random()]: the value the call numbered [k] returns. *)
Variable random : nat -> Q.

(** [array[i] = x], for [i] within the array. *)
Fixpoint assign (i : nat) (x : A) (array : list A) : list A :=
  match array, i with
  | [], _ => []
  | _ :: rest, O => x :: rest
  | y :: rest, S i' => y :: assign i' x rest
  end.

(** [[array[i], array[j]] = [array[j], array[i]]]: both elements are read,
    then both are written.  The loop only produces indices within the array
    when the draws lie in [0, 1), as those of [Math.random] do. *)
Definition swap (i j : nat) (array : list A) : list A :=
  match nth_error array j, nth_error array i with
  | Some aj, Some ai => assign j ai (assign i aj array)
  | _, _ => array
  end.

(** [Math.floor(Math.random() * (i + 1))], at the call numbered [k]. *)
Definition draw (k i : nat) : nat :=
  Z.to_nat (Qfloor (random k * inject_Z (Z.of_nat (i + 1)))).

(** The loop, from index [i] down to 1; [k] draws were made before. *)
Fixpoint shuffle_from (i k : nat) (array : list A) : list A :=
  match i with
  | O => array
  | S i' => shuffle_from i' (S k) (swap i (draw k i) array)
  end.

Definition shuffleArray (array : list A) : list A :=
  shuffle_from (List.length array - 1) 0 array.
End Shuffle.

(** *** Documents of the store *)

(** A document of a snapshot: [doc.id] and [doc.data()]. *)
Definition document : Type := (string * object)%type.

(** [{ ...base, ...extra }]: the properties of [extra] are written over
    [base], one after the other. *)
Definition spread (base extra : object) : object :=
  fold_left (fun o kv => set (fst kv) (snd kv) o) extra base.

(** [{ id: doc.id, ...doc.data() }]. *)
Definition record_of (doc : document) : object :=
  spread [("id", VStr (fst doc))] (snd doc).

(** GET /api/recommendations.  [fetch] is what the query on the
    [recommendations] collection, limited to five documents, gives. *)
Definition recommendations (fetch : completion (list document)) : run response :=
  try_catch
    (docs <- lift fetch ;;
     ret (json (Places (map snd docs))))%run
    (fun _ => ret (mkResponse 500 (Failure "Failed to fetch recommendations" None))).

(** GET /api/popular-items.  [fetch] is what the query on [fs_food_items]
    (rating at least 4.0, by descending rating, limited to five) gives. *)
Definition popular_items (fetch : completion (list document)) : run response :=
  try_catch
    (docs <- lift fetch ;;
     ret (json (Places (map record_of docs))))%run
    (fun _ => ret (mkResponse 500 (Failure "Failed to fetch popular items" None))).

End Server.

(** ** The earlier variant of the server *)
Module Variant.

Section Resolver.
Variable generateContent : string -> completion string.
Variable JSON_stringify : list MenuItem -> string.

Definition ask (prompt : string) : run string :=
  mkRun [prompt] (generateContent prompt).

Definition prompt_for (query : option string) (menu : list MenuItem)
           (mealType : option string) : string :=
  "Given the following menu items: " ++ JSON_stringify menu ++ ", "
  ++ (if truthy (of_param mealType) then
        "provide a list of 5 recommended "
        ++ match mealType with Some m => m | None => EmptyString end
        ++ " items. "
      else if truthy (of_param query) then
        "and the user's search query: "
        ++ quote ++ match query with Some q => q | None => EmptyString end ++ quote
        ++ ", provide a list of 5 recommended items. "
      else "provide a list of 5 generally recommended items. ")
  ++ "If the query matches a specific item or category, prioritize those items. Format the response as a JSON array of objects with 'id' and 'relevance' properties, where 'relevance' is a number from 0 to 1 indicating how closely the item matches the query or meal type.".

(** The inner [try]/[catch]: the reply is parsed as it is, and on failure
    the contents of its first fenced block are parsed instead. *)
Definition extract (content : string) : completion value :=
  match Json.parse content with
  | Normal v => Normal v
  | Throw _ =>
      match fenced_block content with
      | Some inner => Json.parse inner
      | None => Throw (Error "Failed to extract JSON from Gemini response")
      end
  end.

Definition try_block (query : option string) (menu : list MenuItem)
           (mealType : option string) : run (list MenuItem) :=
  (content <- ask (prompt_for query menu mealType) ;;
   recommendedItems <- lift (extract content) ;;
   sorted <- lift (sort_by_relevance recommendedItems) ;;
   found <- lift (map_find menu sorted) ;;
   ret (present found))%run.

Definition getPersonalizedRecommendations (query : option string)
           (menu : list MenuItem) (mealType : option string)
  : run (list MenuItem) :=
  try_catch (try_block query menu mealType) (fun _ => ret []).

(** *** POST /api/chat *)

Inductive chat_payload : Type :=
| Reply (response : string) (recommendations : list MenuItem)
| ChatFailure (error : string) (details : string).

Record chat_response : Type :=
  mkChatResponse { chat_status : nat; chat_body : chat_payload }.

(** [text] is the [message] field of the body.  The model is first asked the
    message itself, then the menu is read and the resolver is run without a
    meal type. *)
Definition chat (text : option string) (menuFetch : completion (list MenuItem))
  : run chat_response :=
  try_catch
    (if negb (truthy (of_param text))
     then throw (Error "Message is required")
     else
       (aiResponse <- ask match text with Some m => m | None => EmptyString end ;;
        menu <- lift menuFetch ;;
        recommendations <- getPersonalizedRecommendations text menu None ;;
        ret (mkChatResponse 200 (Reply aiResponse recommendations)))%run)
    (fun error =>
       ret (mkChatResponse 500
              (ChatFailure "An error occurred while processing the chat."
                           (message error)))).

(** *** GET /api/personalized-recommendations *)
Definition personalized_recommendations (query mealType : option string)
           (menuFetch : completion (list MenuItem)) : run response :=
  try_catch
    (menu <- lift menuFetch ;;
     recommendations <- getPersonalizedRecommendations query menu mealType ;;
     ret (json (Items recommendations)))%run
    (fun _ =>
       ret (mkResponse 500
              (Failure "Failed to fetch personalized recommendations" None))).

End Resolver.

End Variant.

(** ** Sample data *)

Definition item (i title : string) : MenuItem := mkItem i title [].

Definition two_items : list MenuItem :=
  [item "1" "Veg Burger"; item "2" "Chicken Wrap"].

Definition six_items : list MenuItem :=
  [item "1" "Veg Burger"; item "2" "Chicken Wrap"; item "3" "Idli";
   item "4" "Dosa"; item "5" "Paneer Roll"; item "6" "Lassi"].

Definition six_candidates : string :=
  dq "[{'id':'1','relevance':0.9},{'id':'2','relevance':0.8},{'id':'3','relevance':0.7},{'id':'4','relevance':0.6},{'id':'5','relevance':0.5},{'id':'6','relevance':0.4}]".

(** A model that answers every prompt with the same text, and one that is
    out of reach. *)
Definition replying (reply : string) : string -> completion string :=
  fun _ => Normal reply.
Definition unreachable : string -> completion string :=
  fun _ => Throw (Error "fetch failed").

Definition no_stringify : list MenuItem -> string := fun _ => "[]".

(** A reply wrapped in a fenced block, with and without the [json] tag. *)
Definition tagged (t : string) : string := fence ++ "json" ++ LF ++ t ++ LF ++ fence.
Definition untagged (t : string) : string := fence ++ LF ++ t ++ LF ++ fence.

Definition tied_candidates : string :=
  dq "[{'id':'2','relevance':0.5},{'id':'9','relevance':0.9},{'id':'1','relevance':0.5}]".

(** Two literals that denote the same double, and two that overflow. *)
Definition same_double_candidates : string :=
  dq "[{'id':'1','relevance':0.3},{'id':'2','relevance':0.30000000000000001}]".

Definition overflowing_candidates : string :=
  dq "[{'id':'1','relevance':1e400},{'id':'2','relevance':1e500}]".

Definition burger_menu : list MenuItem :=
  [mkItem "1" "Veg Burger" [("restaurantId", VStr "r1")]].

Definition place (i : string) (lat lon : Q) : object :=
  [("id", VStr i); ("latitude", VNum (Num lat)); ("longitude", VNum (Num lon))].

Definition one_restaurant : list object := [place "r1" 12.9 77.6].

(** Two places, the first of them on the equator. *)
Definition two_places : list object := [place "r0" 0 77.6; place "r1" 12.9 77.6].

Definition equator_item : MenuItem :=
  mkItem "7" "Lime Soda" [("restaurantId", VStr "r0")].

(** Stand-ins for the geographic library and for the missing
    [calculateDistance]. *)
Definition flat_distance : number * number -> number * number -> completion number :=
  fun _ _ => Normal (Num 2500).
Definition no_distance : value -> value -> value -> value -> completion value :=
  fun _ _ _ _ => Normal VUndefined.

Definition r1_entry : object :=
  [("id", VStr "r1"); ("name", VStr "Unnamed Hotel");
   ("address", VStr "Address not available");
   ("phone", VStr "Phone not available"); ("type", VStr "restaurant");
   ("latitude", VNum (Num 12.9)); ("longitude", VNum (Num 77.6));
   ("distance", VNum (divided_by (Num 2500) 1000))].


(** ** Notions the statements use *)

(** A candidate as the prompt asks for it: an object whose [relevance] is a
    number. *)
Definition is_candidate (c : value) : bool :=
  match c with
  | VObj props =>
      match get "relevance" props with
      | VNum (Num _) => true
      | _ => false
      end
  | _ => false
  end.

(** The relevance a candidate carries, read off the candidate itself. *)
Definition relevance (c : value) : Q :=
  match c with
  | VObj props =>
      match get "relevance" props with
      | VNum (Num q) => q
      | _ => 0
      end
  | _ => 0
  end.

(** The key does not increase from [a] to [b]. *)
Definition key_descending {A} (key : A -> Q) (a b : A) : Prop :=
  (key b <= key a)%Q.

Definition key_is {A} (key : A -> Q) (r : Q) (a : A) : bool :=
  Qeq_bool (key a) r.

(** Relevance does not increase from [a] to [b]. *)
Definition descending : value -> value -> Prop := key_descending relevance.

Definition has_relevance (r : Q) : value -> bool := key_is relevance r.

(** The identifier a candidate names, when it names one: menu identifiers
    are strings, and only a string equals a string. *)
Definition candidate_id (c : value) : option string :=
  match c with
  | VObj props =>
      match get "id" props with
      | VStr s => Some s
      | _ => None
      end
  | _ => None
  end.

(** Follows the spec's words: each candidate, in order, is replaced by the
    menu item that carries its identifier; a candidate without one is
    dropped. *)
Definition resolved (menu : list MenuItem) (cands : list value) : list MenuItem :=
  flat_map
    (fun c =>
       match candidate_id c with
       | Some s =>
           match find (fun m => String.eqb (id m) s) menu with
           | Some m => [m]
           | None => []
           end
       | None => []
       end)
    cands.

Definition is_zero_value (v : value) : bool :=
  match v with
  | VNum n => is_zero n
  | _ => false
  end.

(** A place one of whose coordinates is the number zero. *)
Definition zero_coordinate (place : object) : bool :=
  is_zero_value (get "latitude" place) || is_zero_value (get "longitude" place).

(** A text without the character of which fences are made. *)
Fixpoint no_backtick (s : string) : bool :=
  match s with
  | EmptyString => true
  | String c rest => negb (Ascii.eqb c "`") && no_backtick rest
  end.

Fixpoint all_spaces (s : string) : bool :=
  match s with
  | EmptyString => true
  | String c rest => is_space c && all_spaces rest
  end.

(** A fenced block whose tag is in capitals. *)
Definition tagged_upper (t : string) : string :=
  fence ++ "JSON" ++ LF ++ t ++ LF ++ fence.

(** The [distance] of an entry of the nearby-hotels answer. *)
Definition distance_of (e : object) : Q :=
  match toNumber (get "distance" e) with
  | Num q => q
  | NaN => 0
  end.


(** Sample draws and a sample document. *)
Definition halves : nat -> Q := fun _ => (1 # 2)%Q.



(** A geographic library that measures every place except [r0]. *)
Definition measure_by_latitude : number * number -> number * number -> completion number :=
  fun _ to => match fst to with
              | Num q => Normal (Num (q * 1000))
              | NaN => Throw (Error "invalid coordinates")
              end.

Definition three_places : list object :=
  [place "r3" 3 1; place "r1" 1 1; place "r2" 2 1].

(** A place whose coordinates are texts that are not numbers. *)
Definition unreadable_place : object :=
  [("id", VStr "r9"); ("latitude", VStr "north"); ("longitude", VStr "east")].

(** An entry whose [distance] is a number. *)
Definition measured (e : object) : Prop :=
  exists q, get "distance" e = VNum (Num q).

(** ** Facts about the sort *)
Section SortFacts.
Context {A : Type}.
Variable comparator : A -> A -> number.
Variable key : A -> Q.
(** The elements on which the comparator is the difference of two keys. *)
Variable keyed : A -> Prop.
Hypothesis comparator_key :
  forall a b, keyed a -> keyed b -> comparator a b = Num (key b - key a).

Lemma insert_permutation (x : A) (l : list A) :
  Permutation (x :: l) (insert comparator x l).
Proof.
  induction l as [|y l IH]; simpl.
  - apply Permutation_refl.
  - destruct (positive (comparator x y)).
    + eapply Permutation_trans; [apply perm_swap|].
      now apply perm_skip.
    + apply Permutation_refl.
Qed.

Lemma sort_permutation (l : list A) : Permutation l (sort comparator l).
Proof.
  induction l as [|x l IH]; simpl.
  - constructor.
  - eapply Permutation_trans; [apply perm_skip, IH|].
    apply insert_permutation.
Qed.

Lemma sort_keyed (l : list A) : Forall keyed l -> Forall keyed (sort comparator l).
Proof.
  intro H. eapply Permutation_Forall; [apply sort_permutation|exact H].
Qed.

Lemma positive_key (a b : A) :
  keyed a -> keyed b ->
  positive (comparator a b) = negb (Qle_bool (key b) (key a)).
Proof.
  intros Ha Hb. rewrite (comparator_key a b Ha Hb). simpl.
  f_equal.
  destruct (Qle_bool (key b - key a) 0) eqn:E1, (Qle_bool (key b) (key a)) eqn:E2;
    try reflexivity; exfalso.
  - apply Qle_bool_iff in E1.
    assert (key b <= key a)%Q as H by lra.
    apply Qle_bool_iff in H. congruence.
  - apply Qle_bool_iff in E2.
    assert (key b - key a <= 0)%Q as H by lra.
    apply Qle_bool_iff in H. congruence.
Qed.

Lemma insert_descending (x : A) (l : list A) :
  keyed x -> Forall keyed l ->
  StronglySorted (key_descending key) l ->
  StronglySorted (key_descending key) (insert comparator x l).
Proof.
  intros Hx Hl Hs. induction Hs as [|y l Hs IH Hy]; simpl.
  - repeat constructor.
  - inversion Hl as [|? ? Ky Kl]; subst.
    rewrite (positive_key x y Hx Ky).
    destruct (Qle_bool (key y) (key x)) eqn:E; simpl.
    + apply Qle_bool_iff in E.
      constructor; [now constructor|].
      constructor; [exact E|].
      eapply Forall_impl; [|exact Hy].
      unfold key_descending. intros z Hz. lra.
    + assert (key x < key y)%Q as Hlt.
      { apply Qnot_le_lt. intro H. apply Qle_bool_iff in H. congruence. }
      constructor; [now apply IH|].
      eapply Permutation_Forall; [apply insert_permutation|].
      constructor; [unfold key_descending; lra|exact Hy].
Qed.

Lemma sort_descending (l : list A) :
  Forall keyed l -> StronglySorted (key_descending key) (sort comparator l).
Proof.
  induction 1 as [|x l Hx Hl IH]; simpl.
  - constructor.
  - apply insert_descending; [exact Hx|now apply sort_keyed|exact IH].
Qed.

(** Inserting [x] moves it only past elements of a greater key, so the
    elements of any one key keep their order. *)
Lemma insert_stable (r : Q) (x : A) (l : list A) :
  keyed x -> Forall keyed l ->
  filter (key_is key r) (insert comparator x l) = filter (key_is key r) (x :: l).
Proof.
  intros Hx Hl. induction Hl as [|y l Ky Kl IH]; [reflexivity|].
  cbn [insert]. rewrite (positive_key x y Hx Ky).
  destruct (Qle_bool (key y) (key x)) eqn:E; cbn [negb]; [reflexivity|].
  cbn [filter] in *. rewrite IH.
  destruct (key_is key r x) eqn:Ex, (key_is key r y) eqn:Ey; try reflexivity.
  exfalso. unfold key_is in Ex, Ey.
  apply Qeq_bool_iff in Ex. apply Qeq_bool_iff in Ey.
  assert (key y <= key x)%Q as H by lra.
  apply Qle_bool_iff in H. congruence.
Qed.

Lemma sort_stable (r : Q) (l : list A) :
  Forall keyed l ->
  filter (key_is key r) (sort comparator l) = filter (key_is key r) l.
Proof.
  induction 1 as [|x l Hx Hl IH]; [reflexivity|].
  cbn [sort fold_right]. fold (sort comparator l).
  rewrite insert_stable; [|exact Hx|now apply sort_keyed].
  cbn [filter]. now rewrite IH.
Qed.
End SortFacts.

(** ** Facts about runs *)

Lemma bind_normal {A B} (m : run A) (k : A -> run B) (b : B) :
  outcome (bind m k) = Normal b ->
  exists a, outcome m = Normal a /\ outcome (k a) = Normal b.
Proof.
  unfold bind. destruct (outcome m) as [a|e]; simpl; intro H.
  - now exists a.
  - discriminate.
Qed.

Lemma lift_bind {A B} (c : completion A) (k : A -> run B) (a : A) :
  c = Normal a -> bind (lift c) k = k a.
Proof.
  intros ->. unfold bind, lift. simpl. now destruct (k a).
Qed.

Lemma bind_outcome_normal {A B} (m : run A) (k : A -> run B) (a : A) :
  outcome m = Normal a -> outcome (bind m k) = outcome (k a).
Proof.
  unfold bind. now intros ->.
Qed.

Lemma bind_outcome_throw {A B} (m : run A) (k : A -> run B) (e : error) :
  outcome m = Throw e -> outcome (bind m k) = Throw e.
Proof.
  unfold bind. now intros ->.
Qed.

Lemma try_catch_throw {A} (body : run A) (handler : error -> run A) (e : error) :
  outcome body = Throw e -> outcome (try_catch body handler) = outcome (handler e).
Proof.
  unfold try_catch. now intros ->.
Qed.

Lemma try_catch_normal {A} (body : run A) (handler : error -> run A) (a : A) :
  outcome body = Normal a -> try_catch body handler = body.
Proof.
  unfold try_catch. now intros ->.
Qed.

(** ** Facts about the resolution of candidates *)

Lemma find_item_in (menu : list MenuItem) (c : value) (m : MenuItem) :
  find_item menu c = Normal (Some m) -> In m menu.
Proof.
  induction menu as [|x menu IH]; cbn [find_item]; [discriminate|].
  destruct (member "id" c) as [i|e]; [|discriminate].
  destruct (strict_eq (VStr (id x)) i).
  - intro H. injection H as ->. now left.
  - intro H. right. now apply IH.
Qed.

Lemma map_find_in (menu : list MenuItem) (cs : list value) :
  forall found m,
    map_find menu cs = Normal found -> In m (present found) -> In m menu.
Proof.
  induction cs as [|c cs IH]; simpl; intros found m H Hin.
  - injection H as <-. destruct Hin.
  - destruct (find_item menu c) as [o|e] eqn:Ef; [|discriminate].
    destruct (map_find menu cs) as [l|e]; [|discriminate].
    injection H as <-.
    destruct o as [x|]; simpl in Hin.
    + destruct Hin as [<-|Hin].
      * now apply (find_item_in menu c).
      * now apply (IH l).
    + now apply (IH l).
Qed.

Lemma find_item_object (menu : list MenuItem) (c : value) :
  nullish c = false ->
  find_item menu c =
  Normal (find (fun m => strict_eq (VStr (id m)) (property "id" c)) menu).
Proof.
  intro Hc. induction menu as [|x menu IH]; cbn [find_item find]; [reflexivity|].
  unfold member. rewrite Hc.
  destruct (strict_eq (VStr (id x)) (property "id" c)); [reflexivity|exact IH].
Qed.

Lemma map_find_objects (menu : list MenuItem) (cs : list value) :
  Forall (fun c => nullish c = false) cs ->
  map_find menu cs =
  Normal (map (fun c => find (fun m => strict_eq (VStr (id m)) (property "id" c)) menu) cs).
Proof.
  induction 1 as [|c cs Hc Hcs IH]; simpl; [reflexivity|].
  now rewrite (find_item_object menu c Hc), IH.
Qed.

Lemma find_named (menu : list MenuItem) (c : value) :
  find (fun m => strict_eq (VStr (id m)) (property "id" c)) menu
  = match candidate_id c with
    | Some s => find (fun m => String.eqb (id m) s) menu
    | None => None
    end.
Proof.
  unfold candidate_id, property.
  induction menu as [|x menu IH]; cbn [find].
  - now destruct c as [| | | | | |props]; [..|destruct (get "id" props)].
  - destruct c as [| | | | | |props]; try exact IH.
    destruct (get "id" props) as [| | |[|q]| | |]; try exact IH.
    cbn [strict_eq]. destruct (String.eqb (id x) s); [reflexivity|exact IH].
Qed.

Lemma present_map_resolved (menu : list MenuItem) (cs : list value) :
  present (map (fun c => find (fun m => strict_eq (VStr (id m)) (property "id" c)) menu) cs)
  = resolved menu cs.
Proof.
  unfold resolved. induction cs as [|c cs IH]; [reflexivity|].
  cbn [map flat_map present]. rewrite (find_named menu c).
  destruct (candidate_id c) as [s|]; [|exact IH].
  destruct (find _ menu); cbn [present app]; now rewrite IH.
Qed.

Lemma candidate_not_nullish (c : value) : is_candidate c = true -> nullish c = false.
Proof.
  destruct c; simpl; congruence.
Qed.

Lemma by_relevance_key (a b : value) :
  is_candidate a = true -> is_candidate b = true ->
  by_relevance a b = Num (relevance b - relevance a).
Proof.
  unfold by_relevance, relevance, is_candidate.
  destruct a as [| | | | |?|pa]; try discriminate.
  destruct b as [| | | | |?|pb]; try discriminate.
  cbn [property].
  destruct (get "relevance" pa) as [| | |[|qa]| | |]; try discriminate.
  destruct (get "relevance" pb) as [| | |[|qb]| | |]; try discriminate.
  reflexivity.
Qed.

Lemma sort_candidates (cs : list value) :
  forallb is_candidate cs = true ->
  sort_by_relevance (VArr cs) = Normal (sort by_relevance cs).
Proof.
  intro H. unfold sort_by_relevance.
  replace (existsb nullish cs) with false; [now rewrite andb_false_r|].
  symmetry. induction cs as [|c cs IH]; [reflexivity|].
  simpl in *. apply andb_true_iff in H as [Hc Hcs].
  now rewrite (candidate_not_nullish c Hc), IH.
Qed.

(** ** Facts about the deployed resolver *)

Lemma catch_block_throws (e : error) :
  Server.catch_block e = throw (ReferenceError "cleanedContent").
Proof. reflexivity. Qed.

(** A failure anywhere in the [try] block leaves the function through the
    [catch] block, which itself fails on its second statement. *)
Lemma resolver_throws_when_try_block_throws
      gen str (query : option string) (menu : list MenuItem) (mealType : option string) (e : error) :
  outcome (Server.try_block gen str query menu mealType) = Throw e ->
  outcome (Server.getPersonalizedRecommendations gen str query menu mealType)
  = Throw (ReferenceError "cleanedContent").
Proof.
  intro H. unfold Server.getPersonalizedRecommendations, try_catch.
  now rewrite H.
Qed.

Lemma resolver_returns_what_try_block_returns
      gen str (query : option string) (menu : list MenuItem) (mealType : option string) recs :
  outcome (Server.getPersonalizedRecommendations gen str query menu mealType) = Normal recs ->
  outcome (Server.try_block gen str query menu mealType) = Normal recs.
Proof.
  unfold Server.getPersonalizedRecommendations, try_catch.
  destruct (outcome (Server.try_block gen str query menu mealType)) eqn:E.
  - now rewrite E.
  - simpl. discriminate.
Qed.

Lemma in_firstn {A} (n : nat) (l : list A) (a : A) : In a (firstn n l) -> In a l.
Proof.
  intro H. rewrite <- (firstn_skipn n l). apply in_or_app. now left.
Qed.

(** When the first branch answers, its answer is the first five of the
    filtered menu, and the filtered menu is not empty. *)
Lemma exact_matches_some (query : option string) (menu found : list MenuItem) :
  Server.exact_matches query menu = Some found ->
  exists q, query = Some q /\ found = firstn 5 (filter (matches q) menu).
Proof.
  unfold Server.exact_matches. destruct query as [q|]; [|discriminate].
  destruct (truthy (VStr q)); [|discriminate].
  destruct (0 <? _)%nat; [|discriminate].
  intro H. exists q. split; congruence.
Qed.

Lemma exact_matches_at_most_five (query : option string) (menu found : list MenuItem) :
  Server.exact_matches query menu = Some found -> List.length found <= 5.
Proof.
  intro H. apply exact_matches_some in H as (q & _ & ->).
  apply firstn_le_length.
Qed.

Lemma exact_matches_in_menu (query : option string) (menu found : list MenuItem) :
  Server.exact_matches query menu = Some found -> incl found menu.
Proof.
  intro H. apply exact_matches_some in H as (q & _ & ->).
  intros m Hm. apply in_firstn in Hm. now apply filter_In in Hm.
Qed.

(** The earlier variant's [catch] block only returns the empty array. *)
Lemma variant_never_throws
      gen str (query : option string) (menu : list MenuItem) (mealType : option string) :
  exists recs,
    outcome (Variant.getPersonalizedRecommendations gen str query menu mealType)
    = Normal recs.
Proof.
  unfold Variant.getPersonalizedRecommendations, try_catch.
  destruct (outcome (Variant.try_block gen str query menu mealType)) as [l|e] eqn:E.
  - exists l. exact E.
  - exists []. reflexivity.
Qed.

(** ** The resolver: what it returns *)

(** C5.  For a non-empty query whose lowercase form occurs in the lowercase
    title of some menu item, the resolver returns the first five (or fewer)
    matching items in the order of the menu, and sends nothing to the
    generative model. *)
Theorem exact_matches_answer_without_model
        gen str (q : string) (menu : list MenuItem) (mealType : option string) :
  q <> EmptyString ->
  (exists it, In it menu
              /\ includes (toLowerCase (productTitle it)) (toLowerCase q) = true) ->
  Server.getPersonalizedRecommendations gen str (Some q) menu mealType
  = mkRun [] (Normal (firstn 5 (filter (matches q) menu))).
Proof.
  intros Hq (it & Hin & Hit).
  assert (Server.exact_matches (Some q) menu
          = Some (firstn 5 (filter (matches q) menu))) as E.
  { unfold Server.exact_matches.
    destruct q as [|c q]; [congruence|]. cbn [truthy].
    assert (In it (filter (matches (String c q)) menu)) as Hf
        by (apply filter_In; split; assumption).
    destruct (filter (matches (String c q)) menu) as [|x l]; [destruct Hf|].
    reflexivity. }
  unfold Server.getPersonalizedRecommendations, Server.try_block.
  rewrite E. reflexivity.
Qed.

Lemma exact_matches_answer_without_model_witness :
  "burger" <> EmptyString
  /\ (exists it, In it two_items
                 /\ includes (toLowerCase (productTitle it)) (toLowerCase "burger") = true)
  /\ Server.getPersonalizedRecommendations unreachable no_stringify
       (Some "burger") two_items None
     = mkRun [] (Normal [item "1" "Veg Burger"]).
Proof.
  assert ("burger" <> EmptyString) as H1 by discriminate.
  assert (exists it, In it two_items
                     /\ includes (toLowerCase (productTitle it)) (toLowerCase "burger") = true)
    as H2 by (exists (item "1" "Veg Burger"); split; [left; reflexivity|reflexivity]).
  split; [exact H1|]. split; [exact H2|].
  exact (exact_matches_answer_without_model
           unreachable no_stringify "burger" two_items None H1 H2).
Defined.

(** C9.  Every item the resolver returns is an item of the menu it was
    given. *)
Theorem recommendations_come_from_menu
        gen str (query : option string) (menu : list MenuItem)
        (mealType : option string) (recs : list MenuItem) (m : MenuItem) :
  outcome (Server.getPersonalizedRecommendations gen str query menu mealType)
  = Normal recs ->
  In m recs -> In m menu.
Proof.
  intros H Hm. apply resolver_returns_what_try_block_returns in H.
  unfold Server.try_block in H.
  destruct (Server.exact_matches query menu) as [found|] eqn:E.
  - simpl in H. injection H as <-.
    now apply (exact_matches_in_menu query menu found).
  - unfold Server.ai_recommendations in H.
    apply bind_normal in H as (content & _ & H).
    apply bind_normal in H as (items & _ & H).
    apply bind_normal in H as (sorted & _ & H).
    apply bind_normal in H as (found & Hfound & H).
    simpl in H, Hfound. injection H as <-.
    now apply (map_find_in menu sorted found).
Qed.

Lemma recommendations_come_from_menu_witness :
  outcome (Server.getPersonalizedRecommendations (replying tied_candidates)
             no_stringify None two_items None)
  = Normal [item "2" "Chicken Wrap"; item "1" "Veg Burger"]
  /\ In (item "1" "Veg Burger") [item "2" "Chicken Wrap"; item "1" "Veg Burger"]
  /\ In (item "1" "Veg Burger") two_items.
Proof.
  assert (outcome (Server.getPersonalizedRecommendations (replying tied_candidates)
                     no_stringify None two_items None)
          = Normal [item "2" "Chicken Wrap"; item "1" "Veg Burger"]) as H1
      by (vm_compute; reflexivity).
  assert (In (item "1" "Veg Burger") [item "2" "Chicken Wrap"; item "1" "Veg Burger"])
    as H2 by (right; left; reflexivity).
  split; [exact H1|]. split; [exact H2|].
  exact (recommendations_come_from_menu
           (replying tied_candidates) no_stringify None two_items None _ _ H1 H2).
Defined.

(** C6.  When the first branch does not answer and the cleaned reply parses
    to an array of candidates, the resolver returns the menu items of the
    candidates taken in a stable order of descending relevance: a
    rearrangement of the candidates, sorted by relevance from high to low, in
    which candidates of equal relevance keep the order of the reply;
    candidates whose identifier no menu item carries are dropped and the
    others keep that order. *)
Theorem ai_recommendations_sorted_stable_resolved
        gen str (query : option string) (menu : list MenuItem)
        (mealType : option string) (content : string) (cands : list value) :
  Server.exact_matches query menu = None ->
  gen (Server.prompt_for str query menu mealType) = Normal content ->
  Json.parse (Server.clean content) = Normal (VArr cands) ->
  forallb is_candidate cands = true ->
  exists sorted,
    Permutation cands sorted
    /\ StronglySorted descending sorted
    /\ (forall r, filter (has_relevance r) sorted = filter (has_relevance r) cands)
    /\ outcome (Server.getPersonalizedRecommendations gen str query menu mealType)
       = Normal (resolved menu sorted).
Proof.
  intros Hfast Hgen Hparse Hcands.
  assert (Forall (fun c => is_candidate c = true) cands) as Hall
      by (apply Forall_forall; intros c Hc;
          now apply (proj1 (forallb_forall is_candidate cands) Hcands)).
  exists (sort by_relevance cands).
  split; [apply sort_permutation|].
  split; [apply (sort_descending by_relevance relevance
                   (fun c => is_candidate c = true) by_relevance_key cands Hall)|].
  split; [intro r;
          apply (sort_stable by_relevance relevance
                   (fun c => is_candidate c = true) by_relevance_key r cands Hall)|].
  assert (Server.try_block gen str query menu mealType
          = mkRun [Server.prompt_for str query menu mealType]
                  (Normal (resolved menu (sort by_relevance cands)))) as E.
  { unfold Server.try_block. rewrite Hfast.
    unfold Server.ai_recommendations, Server.ask.
    unfold bind at 1. cbn [outcome calls]. rewrite Hgen.
    rewrite (lift_bind _ _ _ Hparse).
    rewrite (lift_bind _ _ _ (sort_candidates cands Hcands)).
    assert (Forall (fun c => nullish c = false) (sort by_relevance cands)) as Hn.
    { eapply Permutation_Forall; [apply sort_permutation|].
      eapply Forall_impl; [|exact Hall]. apply candidate_not_nullish. }
    rewrite (lift_bind _ _ _ (map_find_objects menu _ Hn)).
    rewrite present_map_resolved. reflexivity. }
  unfold Server.getPersonalizedRecommendations.
  rewrite (try_catch_normal _ _ (resolved menu (sort by_relevance cands)));
    rewrite E; reflexivity.
Qed.

Lemma ai_recommendations_sorted_stable_resolved_witness :
  exists sorted,
    Permutation
      [VObj [("id", VStr "2"); ("relevance", VNum (Num (binary64 0.5)))];
       VObj [("id", VStr "9"); ("relevance", VNum (Num (binary64 0.9)))];
       VObj [("id", VStr "1"); ("relevance", VNum (Num (binary64 0.5)))]]
      sorted
    /\ StronglySorted descending sorted
    /\ (forall r, filter (has_relevance r) sorted
                  = filter (has_relevance r)
                      [VObj [("id", VStr "2"); ("relevance", VNum (Num (binary64 0.5)))];
                       VObj [("id", VStr "9"); ("relevance", VNum (Num (binary64 0.9)))];
                       VObj [("id", VStr "1"); ("relevance", VNum (Num (binary64 0.5)))]])
    /\ outcome (Server.getPersonalizedRecommendations (replying tied_candidates)
                  no_stringify None two_items None)
       = Normal (resolved two_items sorted).
Proof.
  apply (ai_recommendations_sorted_stable_resolved
           (replying tied_candidates) no_stringify None two_items None
           tied_candidates).
  - reflexivity.
  - reflexivity.
  - vm_compute. reflexivity.
  - reflexivity.
Defined.

(** C1.  Past the first branch nothing bounds the number of items: on a menu
    of six items and a reply that names all six, the resolver returns six
    items. *)
Theorem ai_recommendations_exceed_five :
  exists recs,
    outcome (Server.getPersonalizedRecommendations (replying six_candidates)
               no_stringify None six_items None)
    = Normal recs
    /\ List.length recs = 6.
Proof.
  exists six_items. split; vm_compute; reflexivity.
Qed.

(** C2.  A failure inside the resolver reaches its caller: with the model out
    of reach, with a truncated reply, with a reply that is not an array and
    with an empty reply, the resolver throws the reference error of its own
    [catch] block instead of returning the empty sequence. *)
Theorem failures_leave_the_resolver :
  outcome (Server.getPersonalizedRecommendations unreachable
             no_stringify None two_items None)
  = Throw (mkError "ReferenceError" "cleanedContent is not defined")
  /\ outcome (Server.getPersonalizedRecommendations (replying (dq "[{'id':'1'"))
                no_stringify None two_items None)
     = Throw (mkError "ReferenceError" "cleanedContent is not defined")
  /\ outcome (Server.getPersonalizedRecommendations
                (replying (dq "{'id':'1','relevance':1}"))
                no_stringify None two_items None)
     = Throw (mkError "ReferenceError" "cleanedContent is not defined")
  /\ outcome (Server.getPersonalizedRecommendations (replying EmptyString)
                no_stringify (Some "pizza") two_items None)
     = Throw (mkError "ReferenceError" "cleanedContent is not defined").
Proof.
  repeat split; vm_compute; reflexivity.
Qed.

(** On the same inputs the earlier variant returns the empty sequence. *)
Lemma variant_returns_empty_on_failures :
  outcome (Variant.getPersonalizedRecommendations unreachable
             no_stringify None two_items None) = Normal []
  /\ outcome (Variant.getPersonalizedRecommendations (replying (dq "[{'id':'1'"))
                no_stringify None two_items None) = Normal []
  /\ outcome (Variant.getPersonalizedRecommendations
                (replying (dq "{'id':'1','relevance':1}"))
                no_stringify None two_items None) = Normal []
  /\ outcome (Variant.getPersonalizedRecommendations (replying EmptyString)
                no_stringify (Some "pizza") two_items None) = Normal [].
Proof.
  repeat split; vm_compute; reflexivity.
Qed.

(** ** Extraction of the reply *)

(** C4.  The cleaning step removes a fence tagged [json] but leaves the
    opening fence of an untagged block in place: the untagged wrapping of
    the empty array does not parse, although the array itself and its tagged
    wrapping do, and the resolver fails on it. *)
Theorem untagged_fence_is_not_removed :
  Json.parse "[]" = Normal (VArr [])
  /\ Json.parse (Server.clean (tagged "[]")) = Normal (VArr [])
  /\ Server.clean (untagged "[]") = fence ++ LF ++ "[]"
  /\ Json.parse (Server.clean (untagged "[]"))
     = Throw (SyntaxError "Unexpected token in JSON")
  /\ outcome (Server.getPersonalizedRecommendations (replying (untagged "[]"))
                no_stringify None two_items None)
     = Throw (mkError "ReferenceError" "cleanedContent is not defined").
Proof.
  repeat split; vm_compute; reflexivity.
Qed.

(** The earlier variant extracts the array from both wrappings. *)
Lemma variant_extracts_both_wrappings :
  Variant.extract (tagged six_candidates) = Json.parse six_candidates
  /\ Variant.extract (untagged six_candidates) = Json.parse six_candidates
  /\ Variant.extract (untagged "[]") = Normal (VArr []).
Proof.
  repeat split; vm_compute; reflexivity.
Qed.

(** ** The handlers *)

(** The callback fails as soon as it has a place with coordinates to measure
    the distance to: the module binds no [calculateDistance]. *)
Lemma attach_distance_throws
      calc (lat lon : value) (restaurants : list object) (it : MenuItem) (r : object) :
  find (fun r => strict_eq (get "id" r) (get "restaurantId" (fields it))) restaurants
  = Some r ->
  Server.has_coordinates r = true ->
  Server.attach_distance calc lat lon restaurants it
  = throw (ReferenceError "calculateDistance").
Proof.
  intros Hr Hc. unfold Server.attach_distance. rewrite Hr, Hc. reflexivity.
Qed.

(** C3.  With [lat] and [lon] supplied and a recommendation whose place has
    both coordinates, the endpoint answers with status 500 and no list,
    whatever [calculateDistance] was meant to be. *)
Theorem personalized_recommendations_with_location_fail
        gen str calc :
  Server.personalized_recommendations gen str calc
    (Some "burger") None (Some "12.9") (Some "77.5")
    (Normal burger_menu) (Normal one_restaurant)
  = mkRun [] (Normal (mkResponse 500
                        (Failure "Failed to fetch personalized recommendations" None))).
Proof.
  reflexivity.
Qed.

(** Without a location the same request is answered with the list. *)
Lemma personalized_recommendations_without_location
      gen str calc :
  Server.personalized_recommendations gen str calc
    (Some "burger") None None None
    (Normal burger_menu) (Normal one_restaurant)
  = mkRun [] (Normal (json (Items burger_menu))).
Proof.
  reflexivity.
Qed.

(** The text of the failure response of the chat endpoint. *)
Lemma chat_failure_of_resolver :
  Server.chat (replying "oops") no_stringify (Server.mkChat (Some "pizza") None)
    (Normal two_items)
  = mkRun [Server.prompt_for no_stringify (Some "pizza") two_items None]
          (Normal (mkResponse 500
                     (Failure "An error occurred while processing the chat."
                              (Some "cleanedContent is not defined")))).
Proof.
  vm_compute. reflexivity.
Qed.

(** C7, as stated, fails: a body whose [message] is present but empty, and
    which has no [mealType], is answered with status 500 although the store
    was read without failure. *)
Lemma chat_rejects_present_empty_message :
  Server.chat_message (Server.mkChat (Some EmptyString) None) <> None
  /\ Server.chat (replying six_candidates) no_stringify
       (Server.mkChat (Some EmptyString) None) (Normal six_items)
     = mkRun [] (Normal (mkResponse 500
                           (Failure "An error occurred while processing the chat."
                                    (Some "Message or meal type is required")))).
Proof.
  split; [discriminate|reflexivity].
Qed.

(** C7, amended.  The chat endpoint requires one of [message] and [mealType]
    to be truthy (present and not empty).  When neither is, it answers 500
    with an error text and the details of the validation failure, and asks
    neither the store's menu nor the model.  When one is, the menu was read
    and the resolver returns a sequence, it answers 200 with that sequence
    as [recommendations]. *)
Theorem chat_requires_a_truthy_field
        gen str (req : Server.chat_body) (menuFetch : completion (list MenuItem)) :
  (truthy (of_param (Server.chat_message req)) = false ->
   truthy (of_param (Server.chat_mealType req)) = false ->
   Server.chat gen str req menuFetch
   = mkRun [] (Normal (mkResponse 500
                         (Failure "An error occurred while processing the chat."
                                  (Some "Message or meal type is required")))))
  /\ (forall menu recs,
         truthy (of_param (Server.chat_message req))
         || truthy (of_param (Server.chat_mealType req)) = true ->
         menuFetch = Normal menu ->
         outcome (Server.getPersonalizedRecommendations gen str
                    (Server.chat_message req) menu (Server.chat_mealType req))
         = Normal recs ->
         outcome (Server.chat gen str req menuFetch)
         = Normal (mkResponse 200 (Recommendations recs))).
Proof.
  split.
  - intros Hm Ht. unfold Server.chat. rewrite Hm, Ht. reflexivity.
  - intros menu recs Hgate -> Hrecs. unfold Server.chat.
    replace (negb (truthy (of_param (Server.chat_message req)))
             && negb (truthy (of_param (Server.chat_mealType req)))) with false
      by (rewrite <- negb_orb, Hgate; reflexivity).
    rewrite (lift_bind (Normal menu) _ menu eq_refl).
    unfold try_catch, bind. rewrite Hrecs. cbn. reflexivity.
Qed.

Lemma chat_requires_a_truthy_field_witness :
  Server.chat unreachable no_stringify (Server.mkChat None (Some EmptyString))
    (Normal two_items)
  = mkRun [] (Normal (mkResponse 500
                        (Failure "An error occurred while processing the chat."
                                 (Some "Message or meal type is required"))))
  /\ outcome (Server.chat unreachable no_stringify
                (Server.mkChat (Some "burger") None) (Normal two_items))
     = Normal (mkResponse 200 (Recommendations [item "1" "Veg Burger"])).
Proof.
  split.
  - exact (proj1 (chat_requires_a_truthy_field unreachable no_stringify
                    (Server.mkChat None (Some EmptyString)) (Normal two_items))
                 eq_refl eq_refl).
  - exact (proj2 (chat_requires_a_truthy_field unreachable no_stringify
                    (Server.mkChat (Some "burger") None) (Normal two_items))
                 two_items [item "1" "Veg Burger"] eq_refl eq_refl eq_refl).
Defined.

(** ** Places without coordinates *)

Lemma zero_is_falsy (v : value) : is_zero_value v = true -> truthy v = false.
Proof.
  destruct v as [| | |[|q]| | |]; simpl; try discriminate.
  now intros ->.
Qed.

Lemma zero_coordinate_has_no_coordinates (place : object) :
  zero_coordinate place = true -> Server.has_coordinates place = false.
Proof.
  unfold zero_coordinate, Server.has_coordinates. intro H.
  apply orb_true_iff in H as [H|H]; apply zero_is_falsy in H; rewrite H.
  - reflexivity.
  - apply andb_false_r.
Qed.

Lemma with_coordinates_skips_zero (places : list object) :
  filter Server.has_coordinates (filter (fun p => negb (zero_coordinate p)) places)
  = filter Server.has_coordinates places.
Proof.
  induction places as [|p places IH]; [reflexivity|].
  cbn [filter]. destruct (zero_coordinate p) eqn:Z; cbn [negb filter].
  - rewrite (zero_coordinate_has_no_coordinates p Z). exact IH.
  - now rewrite IH.
Qed.

Lemma in_present_map {A B} (f : A -> option B) (l : list A) (b : B) :
  In b (present (map f l)) -> exists a, In a l /\ f a = Some b.
Proof.
  induction l as [|a l IH]; cbn [map present]; [intros []|].
  destruct (f a) as [b'|] eqn:E.
  - intros [<-|H].
    + exists a. split; [now left|exact E].
    + destruct (IH H) as (a' & Ha & Hf). exists a'. split; [now right|exact Hf].
  - intro H. destruct (IH H) as (a' & Ha & Hf). exists a'. split; [now right|exact Hf].
Qed.

(** C10.  A place whose latitude or longitude is the number zero counts as a
    place without coordinates.  The nearby-hotels endpoint answers as if the
    store did not hold such places, and every entry of its answer is the
    entry of a stored place that has no zero coordinate.  The callback of the
    personalized-recommendations endpoint returns a recommendation as it is,
    with no distance set, when its place has a zero coordinate. *)
Theorem zero_coordinates_count_as_absent
        calc pf gd (latitude longitude : option string) (places : list object) :
  Server.nearby_hotels pf gd latitude longitude (Normal places)
  = Server.nearby_hotels pf gd latitude longitude
      (Normal (filter (fun p => negb (zero_coordinate p)) places))
  /\ (forall e,
         In e (Server.nearest pf gd (of_param latitude) (of_param longitude) places) ->
         exists p, In p places
                   /\ zero_coordinate p = false
                   /\ Server.nearby_entry pf gd (of_param latitude) (of_param longitude) p
                      = Some e)
  /\ (forall lat lon it r,
         find (fun r => strict_eq (get "id" r) (get "restaurantId" (fields it))) places
         = Some r ->
         zero_coordinate r = true ->
         Server.attach_distance calc lat lon places it = ret it).
Proof.
  split; [|split].
  - unfold Server.nearby_hotels, Server.nearest.
    rewrite !(lift_bind (Normal _) _ _ eq_refl).
    now rewrite with_coordinates_skips_zero.
  - intros e He. unfold Server.nearest in He.
    apply in_firstn in He.
    apply (Permutation_in e (Permutation_sym (sort_permutation _ _))) in He.
    apply in_present_map in He as (p & Hp & Hentry).
    apply filter_In in Hp as [Hp Hc].
    exists p. split; [exact Hp|]. split; [|exact Hentry].
    destruct (zero_coordinate p) eqn:Z; [|reflexivity].
    rewrite (zero_coordinate_has_no_coordinates p Z) in Hc. discriminate.
  - intros lat lon it r Hr Hz. unfold Server.attach_distance.
    rewrite Hr, (zero_coordinate_has_no_coordinates r Hz). reflexivity.
Qed.

Lemma zero_coordinates_count_as_absent_witness :
  Server.nearby_hotels toNumber flat_distance (Some "0") (Some "0") (Normal two_places)
  = Server.nearby_hotels toNumber flat_distance (Some "0") (Some "0")
      (Normal [place "r1" 12.9 77.6])
  /\ (exists p, In p two_places
                /\ zero_coordinate p = false
                /\ Server.nearby_entry toNumber flat_distance (VStr "0") (VStr "0") p
                   = Some r1_entry)
  /\ Server.attach_distance no_distance (VStr "0") (VStr "0") two_places equator_item
     = ret equator_item.
Proof.
  pose proof (zero_coordinates_count_as_absent
                no_distance toNumber flat_distance (Some "0") (Some "0") two_places)
    as (H1 & H2 & H3).
  split; [exact H1|]. split.
  - exact (H2 r1_entry (or_introl eq_refl)).
  - exact (H3 (VStr "0") (VStr "0") equator_item (place "r0" 0 77.6) eq_refl eq_refl).
Defined.

(** The example of two places on the equator, seen from the point (0, 0):
    both have latitude zero, and the answer is empty. *)
Lemma equator_places_are_dropped pf gd :
  Server.nearest pf gd (VStr "0") (VStr "0") [place "a" 0 1; place "b" 0 2] = [].
Proof. reflexivity. Qed.

(** A coordinate stored as the text of a zero is truthy, and kept. *)
Lemma textual_zero_is_a_coordinate :
  Server.has_coordinates [("latitude", VStr "0"); ("longitude", VStr "0")] = true.
Proof. reflexivity. Qed.

(** ** The location branch in general *)

Lemma for_each_throws {A B} (f : A -> run B) (e : error) (l : list A) :
  (forall a, In a l -> f a = throw e \/ exists b, f a = ret b) ->
  (exists a, In a l /\ f a = throw e) ->
  Server.for_each f l = throw e.
Proof.
  induction l as [|x l IH]; intros Hall (a & Ha & Hf); [destruct Ha|].
  cbn [Server.for_each].
  destruct (Hall x (or_introl eq_refl)) as [Hx|(b & Hx)]; rewrite Hx.
  - reflexivity.
  - assert (Server.for_each f l = throw e) as ->.
    { apply IH.
      - intros y Hy. apply Hall. now right.
      - destruct Ha as [<-|Ha].
        + rewrite Hf in Hx. discriminate.
        + now exists a. }
    reflexivity.
Qed.

Lemma attach_distance_returns_or_throws
      calc (lat lon : value) (restaurants : list object) (it : MenuItem) :
  Server.attach_distance calc lat lon restaurants it
  = throw (ReferenceError "calculateDistance")
  \/ exists b, Server.attach_distance calc lat lon restaurants it = ret b.
Proof.
  unfold Server.attach_distance.
  destruct (find _ restaurants) as [r|]; [|right; now exists it].
  destruct (Server.has_coordinates r); [left; reflexivity|right; now exists it].
Qed.

(** Whenever a location is supplied, both collections are read and one of
    the recommendations has a place with coordinates, the endpoint answers
    500. *)
Lemma personalized_recommendations_fail_in_general
      gen str calc (query mealType : option string) (lat lon : string)
      (menu recs : list MenuItem) (restaurants : list object) (it : MenuItem) (r : object) :
  lat <> EmptyString -> lon <> EmptyString ->
  outcome (Server.getPersonalizedRecommendations gen str query menu mealType)
  = Normal recs ->
  In it recs ->
  find (fun r => strict_eq (get "id" r) (get "restaurantId" (fields it))) restaurants
  = Some r ->
  Server.has_coordinates r = true ->
  outcome (Server.personalized_recommendations gen str calc query mealType
             (Some lat) (Some lon) (Normal menu) (Normal restaurants))
  = Normal (mkResponse 500
              (Failure "Failed to fetch personalized recommendations" None)).
Proof.
  intros Hlat Hlon Hrecs Hin Hr Hc.
  unfold Server.personalized_recommendations.
  rewrite (lift_bind (Normal menu) _ menu eq_refl).
  destruct lat as [|c1 lat]; [congruence|].
  destruct lon as [|c2 lon]; [congruence|].
  cbn [of_param truthy andb].
  rewrite (try_catch_throw _ _ (ReferenceError "calculateDistance")); [reflexivity|].
  rewrite (bind_outcome_normal _ _ recs Hrecs).
  apply bind_outcome_throw.
  rewrite (lift_bind (Normal restaurants) _ restaurants eq_refl).
  rewrite (for_each_throws _ (ReferenceError "calculateDistance") recs).
  - reflexivity.
  - intros a _. apply attach_distance_returns_or_throws.
  - exists it. split; [exact Hin|].
    now apply (attach_distance_throws calc _ _ restaurants it r).
Qed.

(** The earlier variant has no first branch: it always asks the model. *)
Lemma variant_always_asks
      gen str (query : option string) (menu : list MenuItem) (mealType : option string) :
  calls (Variant.getPersonalizedRecommendations gen str query menu mealType)
  = [Variant.prompt_for str query menu mealType].
Proof.
  unfold Variant.getPersonalizedRecommendations, try_catch.
  assert (calls (Variant.try_block gen str query menu mealType)
          = [Variant.prompt_for str query menu mealType]) as Hc.
  { unfold Variant.try_block, Variant.ask, bind. cbn [outcome calls].
    destruct (gen _) as [content|]; [|reflexivity].
    cbn [outcome calls lift].
    destruct (Variant.extract content) as [v|]; [|reflexivity].
    cbn [outcome calls].
    destruct (sort_by_relevance v) as [sorted|]; [|reflexivity].
    cbn [outcome calls].
    destruct (map_find menu sorted); reflexivity. }
  destruct (outcome (Variant.try_block gen str query menu mealType)).
  - exact Hc.
  - cbn [calls ret]. rewrite Hc. reflexivity.
Qed.

(** ** The shuffle helper *)

Lemma assign_length {A} (i : nat) (x : A) (l : list A) :
  List.length (Server.assign i x l) = List.length l.
Proof.
  revert i. induction l as [|y l IH]; intros [|i]; simpl; auto.
Qed.

Lemma nth_error_assign_same {A} (i : nat) (x : A) (l : list A) :
  i < List.length l -> nth_error (Server.assign i x l) i = Some x.
Proof.
  revert i. induction l as [|y l IH]; intros [|i] H; simpl in *; try lia.
  - reflexivity.
  - apply IH. lia.
Qed.

Lemma nth_error_assign_other {A} (i j : nat) (x : A) (l : list A) :
  i <> j -> nth_error (Server.assign i x l) j = nth_error l j.
Proof.
  revert i j. induction l as [|y l IH]; intros [|i] [|j] H; simpl; try reflexivity.
  - congruence.
  - apply IH. congruence.
Qed.

Lemma assign_permutation {A} (i : nat) (x a : A) (l : list A) :
  nth_error l i = Some a -> Permutation (x :: l) (a :: Server.assign i x l).
Proof.
  revert i. induction l as [|y l IH]; intros [|i] H; simpl in *; try discriminate.
  - injection H as ->. apply perm_swap.
  - eapply Permutation_trans; [apply perm_swap|].
    eapply Permutation_trans; [apply perm_skip, (IH i H)|].
    apply perm_swap.
Qed.

(** Exchanging two elements of an array rearranges it. *)
Lemma swap_permutation {A} (i j : nat) (l : list A) :
  i < List.length l -> j < List.length l ->
  Permutation l (Server.swap i j l) /\ List.length (Server.swap i j l) = List.length l.
Proof.
  intros Hi Hj. unfold Server.swap.
  destruct (nth_error l j) as [aj|] eqn:Ej;
    [|apply nth_error_None in Ej; lia].
  destruct (nth_error l i) as [ai|] eqn:Ei;
    [|apply nth_error_None in Ei; lia].
  split; [|now rewrite !assign_length].
  assert (nth_error (Server.assign i aj l) j = Some aj) as Ej'.
  { destruct (Nat.eq_dec i j) as [<-|Hne].
    - now apply nth_error_assign_same.
    - now rewrite nth_error_assign_other. }
  apply (Permutation_cons_inv (a := aj)).
  eapply Permutation_trans; [apply (assign_permutation i aj ai l Ei)|].
  apply (assign_permutation j ai aj _ Ej').
Qed.

Lemma draw_within (random : nat -> Q) (k i : nat) :
  (0 <= random k)%Q -> (random k < 1)%Q -> Server.draw random k i <= i.
Proof.
  intros H0 H1. unfold Server.draw.
  set (n := inject_Z (Z.of_nat (i + 1))).
  assert (0 < n)%Q as Hn.
  { unfold n. change 0%Q with (inject_Z 0). rewrite <- Zlt_Qlt. lia. }
  assert (random k * n < n)%Q as Hlt by nra.
  assert (Qfloor (random k * n) < Z.of_nat (i + 1))%Z as Hz.
  { rewrite Zlt_Qlt. fold n.
    eapply Qle_lt_trans; [apply Qfloor_le|exact Hlt]. }
  lia.
Qed.

Lemma shuffle_from_permutation {A} (random : nat -> Q) (i k : nat) (l : list A) :
  (forall n, 0 <= random n /\ random n < 1)%Q ->
  i < List.length l ->
  Permutation l (Server.shuffle_from random i k l).
Proof.
  intro Hr. revert k l. induction i as [|i IH]; intros k l Hi; simpl.
  - apply Permutation_refl.
  - destruct (Hr k) as [H0 H1].
    pose proof (draw_within random k (S i) H0 H1) as Hd.
    destruct (swap_permutation (S i) (Server.draw random k (S i)) l) as [Hp Hl];
      [lia|lia|].
    eapply Permutation_trans; [exact Hp|].
    apply IH. lia.
Qed.

(** X1.  Whatever the draws of [Math.random], the shuffle returns a
    rearrangement of its argument: every element is kept, as many times as
    it occurred. *)
Theorem shuffleArray_permutation {A} (random : nat -> Q) (array : list A) :
  (forall n, 0 <= random n /\ random n < 1)%Q ->
  Permutation array (Server.shuffleArray random array).
Proof.
  intro Hr. unfold Server.shuffleArray.
  destruct array as [|x array]; [apply Permutation_refl|].
  apply shuffle_from_permutation; [exact Hr|]. simpl. lia.
Qed.

Lemma shuffleArray_permutation_witness :
  (forall n, 0 <= halves n /\ halves n < 1)%Q
  /\ Permutation [1; 2; 3; 4] (Server.shuffleArray halves [1; 2; 3; 4]).
Proof.
  assert (forall n, 0 <= halves n /\ halves n < 1)%Q as H
      by (intro n; unfold halves; split; [discriminate|reflexivity]).
  split; [exact H|].
  exact (shuffleArray_permutation halves [1; 2; 3; 4] H).
Defined.

(** ** The nearby-hotels answer *)

Lemma strongly_sorted_impl {A} (R R' : A -> A -> Prop) (l : list A) :
  (forall a b, R a b -> R' a b) -> StronglySorted R l -> StronglySorted R' l.
Proof.
  intros H. induction 1 as [|a l Hs IH Ha]; constructor; [exact IH|].
  eapply Forall_impl; [|exact Ha]. intros b. apply H.
Qed.

Lemma strongly_sorted_firstn {A} (R : A -> A -> Prop) (n : nat) (l : list A) :
  StronglySorted R l -> StronglySorted R (firstn n l).
Proof.
  intro Hs. revert n. induction Hs as [|a l Hs IH Ha]; intros [|n]; simpl;
    try constructor.
  - apply IH.
  - apply Forall_forall. intros b Hb. apply in_firstn in Hb.
    revert b Hb. now apply Forall_forall.
Qed.

Lemma strongly_sorted_app {A} (R : A -> A -> Prop) (l1 l2 : list A) :
  StronglySorted R (l1 ++ l2) ->
  forall a b, In a l1 -> In b l2 -> R a b.
Proof.
  induction l1 as [|x l1 IH]; simpl; intros Hs a b Ha Hb; [destruct Ha|].
  inversion Hs as [|? ? Hs' Hx]; subst.
  destruct Ha as [<-|Ha].
  - rewrite Forall_forall in Hx. apply Hx. apply in_or_app. now right.
  - now apply IH.
Qed.

Lemma nearby_entry_measured pf gd (la lo : value) (p e : object) :
  (forall a b, gd a b <> Normal NaN) ->
  Server.nearby_entry pf gd la lo p = Some e -> measured e.
Proof.
  intros Hgd. unfold Server.nearby_entry.
  destruct (gd _ _) as [[|m]|] eqn:E; [now apply Hgd in E| |discriminate].
  intro H. injection H as <-. exists (m / 1000)%Q. reflexivity.
Qed.

Lemma by_distance_key (a b : object) :
  measured a -> measured b ->
  Server.by_distance a b = Num ((- distance_of b) - (- distance_of a)).
Proof.
  intros [qa Ha] [qb Hb]. unfold Server.by_distance, distance_of.
  rewrite Ha, Hb. cbn [toNumber minus]. f_equal.
  destruct qa as [na da], qb as [nb db].
  unfold Qminus, Qplus, Qopp. cbn [Qnum Qden]. f_equal; [ring|apply Pos.mul_comm].
Qed.

Lemma entries_measured pf gd (la lo : value) (places : list object) :
  (forall a b, gd a b <> Normal NaN) ->
  Forall measured (present (map (Server.nearby_entry pf gd la lo) places)).
Proof.
  intro Hgd. apply Forall_forall. intros e He.
  apply in_present_map in He as (p & _ & Hp).
  now apply (nearby_entry_measured pf gd la lo p e).
Qed.

(** X2.  When the geographic library returns numbers, the answer of the
    nearby-hotels endpoint has at most five entries, in ascending order of
    distance, and they are the nearest: every entry computed but left out is
    at least as far as every entry of the answer. *)
Theorem nearest_are_the_five_closest
        pf gd (la lo : value) (places : list object) :
  (forall a b, gd a b <> Normal NaN) ->
  List.length (Server.nearest pf gd la lo places) <= 5
  /\ StronglySorted (fun a b => (distance_of a <= distance_of b)%Q)
                    (Server.nearest pf gd la lo places)
  /\ exists others,
      Permutation
        (present (map (Server.nearby_entry pf gd la lo)
                      (filter Server.has_coordinates places)))
        (Server.nearest pf gd la lo places ++ others)
      /\ forall a b, In a (Server.nearest pf gd la lo places) -> In b others ->
                     (distance_of a <= distance_of b)%Q.
Proof.
  intros Hgd.
  set (entries := present (map (Server.nearby_entry pf gd la lo)
                               (filter Server.has_coordinates places))).
  pose proof (entries_measured pf gd la lo (filter Server.has_coordinates places) Hgd)
    as Hm. fold entries in Hm.
  assert (StronglySorted (fun a b => (distance_of a <= distance_of b)%Q)
                         (sort Server.by_distance entries)) as Hs.
  { eapply strongly_sorted_impl;
      [|apply (sort_descending Server.by_distance (fun e => (- distance_of e)%Q)
                 measured by_distance_key entries Hm)].
    unfold key_descending. intros a b H. lra. }
  change (Server.nearest pf gd la lo places)
    with (firstn 5 (sort Server.by_distance entries)).
  split; [apply firstn_le_length|].
  split; [now apply strongly_sorted_firstn|].
  exists (skipn 5 (sort Server.by_distance entries)).
  rewrite firstn_skipn. split; [apply sort_permutation|].
  apply strongly_sorted_app. now rewrite firstn_skipn.
Qed.

Lemma nearest_are_the_five_closest_witness :
  (forall a b, measure_by_latitude a b <> Normal NaN)
  /\ List.length (Server.nearest toNumber measure_by_latitude (VStr "0") (VStr "0")
                    three_places) <= 5
  /\ StronglySorted (fun a b => (distance_of a <= distance_of b)%Q)
                    (Server.nearest toNumber measure_by_latitude (VStr "0") (VStr "0")
                       three_places)
  /\ exists others,
      Permutation
        (present (map (Server.nearby_entry toNumber measure_by_latitude
                         (VStr "0") (VStr "0"))
                      (filter Server.has_coordinates three_places)))
        (Server.nearest toNumber measure_by_latitude (VStr "0") (VStr "0")
           three_places ++ others)
      /\ forall a b,
          In a (Server.nearest toNumber measure_by_latitude (VStr "0") (VStr "0")
                  three_places) ->
          In b others -> (distance_of a <= distance_of b)%Q.
Proof.
  assert (forall a b, measure_by_latitude a b <> Normal NaN) as H.
  { intros a b. unfold measure_by_latitude. destruct (fst b); discriminate. }
  split; [exact H|].
  exact (nearest_are_the_five_closest toNumber measure_by_latitude
           (VStr "0") (VStr "0") three_places H).
Defined.

Lemma truthy_or_else (a b : value) : truthy b = true -> truthy (or_else a b) = true.
Proof.
  intro H. unfold or_else. destruct (truthy a) eqn:E; assumption.
Qed.

(** X3.  Every entry of the nearby-hotels answer stems from a stored place
    with both coordinates, carries that place's identifier and coordinates,
    and has a name, an address, a phone and a type that are never empty. *)
Theorem nearby_entries_are_complete
        pf gd (la lo : value) (places : list object) (e : object) :
  In e (Server.nearest pf gd la lo places) ->
  exists p,
    In p places
    /\ get "id" e = get "id" p
    /\ get "latitude" e = get "latitude" p
    /\ get "longitude" e = get "longitude" p
    /\ truthy (get "latitude" e) = true
    /\ truthy (get "longitude" e) = true
    /\ truthy (get "name" e) = true
    /\ truthy (get "address" e) = true
    /\ truthy (get "phone" e) = true
    /\ truthy (get "type" e) = true.
Proof.
  intro He. unfold Server.nearest in He. apply in_firstn in He.
  apply (Permutation_in e (Permutation_sym (sort_permutation _ _))) in He.
  apply in_present_map in He as (p & Hp & Hentry).
  apply filter_In in Hp as [Hp Hc].
  unfold Server.has_coordinates in Hc. apply andb_true_iff in Hc as [Hla Hlo].
  exists p. split; [exact Hp|].
  unfold Server.nearby_entry in Hentry.
  destruct (gd _ _) as [m|]; [|discriminate].
  injection Hentry as <-. cbn [get String.eqb Ascii.eqb Bool.eqb].
  repeat split; try assumption; now apply truthy_or_else.
Qed.

Lemma nearby_entries_are_complete_witness :
  In r1_entry (Server.nearest toNumber flat_distance (VStr "0") (VStr "0") two_places)
  /\ exists p,
      In p two_places
      /\ get "id" r1_entry = get "id" p
      /\ get "latitude" r1_entry = get "latitude" p
      /\ get "longitude" r1_entry = get "longitude" p
      /\ truthy (get "latitude" r1_entry) = true
      /\ truthy (get "longitude" r1_entry) = true
      /\ truthy (get "name" r1_entry) = true
      /\ truthy (get "address" r1_entry) = true
      /\ truthy (get "phone" r1_entry) = true
      /\ truthy (get "type" r1_entry) = true.
Proof.
  assert (In r1_entry (Server.nearest toNumber flat_distance (VStr "0") (VStr "0")
                         two_places)) as H by (left; reflexivity).
  split; [exact H|].
  exact (nearby_entries_are_complete toNumber flat_distance (VStr "0") (VStr "0")
           two_places r1_entry H).
Defined.

(** X4.  A place for which the geographic library throws is left out, and the
    answer is the one the store would get without that place. *)
Theorem unmeasurable_place_is_skipped
        pf gd (latitude longitude : option string)
        (before after : list object) (p : object) (e : error) :
  gd (pf (of_param latitude), pf (of_param longitude))
     (pf (get "latitude" p), pf (get "longitude" p)) = Throw e ->
  Server.nearby_hotels pf gd latitude longitude (Normal (before ++ p :: after)%list)
  = Server.nearby_hotels pf gd latitude longitude (Normal (before ++ after)%list).
Proof.
  intro Hgd.
  assert (forall l, present (map (Server.nearby_entry pf gd (of_param latitude)
                                    (of_param longitude)) (p :: l))
                    = present (map (Server.nearby_entry pf gd (of_param latitude)
                                      (of_param longitude)) l)) as Hp.
  { intro l. cbn [map]. unfold Server.nearby_entry at 1. now rewrite Hgd. }
  assert (forall {A B} (f : A -> option B) l1 l2,
             present (map f (l1 ++ l2)) = present (map f l1) ++ present (map f l2))%list
    as Happ.
  { intros A B f l1 l2. induction l1 as [|a l1 IH]; [reflexivity|].
    cbn [app map present]. destruct (f a); cbn [app]; now rewrite IH. }
  unfold Server.nearby_hotels, Server.nearest.
  rewrite !(lift_bind (Normal _) _ _ eq_refl).
  rewrite !filter_app, !Happ. cbn [filter].
  destruct (Server.has_coordinates p); [rewrite Hp|]; reflexivity.
Qed.

Lemma unmeasurable_place_is_skipped_witness :
  measure_by_latitude
    (toNumber (of_param (Some "0")), toNumber (of_param (Some "0")))
    (toNumber (get "latitude" unreadable_place),
     toNumber (get "longitude" unreadable_place))
  = Throw (Error "invalid coordinates")
  /\ Server.nearby_hotels toNumber measure_by_latitude (Some "0") (Some "0")
       (Normal [place "r1" 1 1; unreadable_place; place "r2" 2 1])
     = Server.nearby_hotels toNumber measure_by_latitude (Some "0") (Some "0")
         (Normal [place "r1" 1 1; place "r2" 2 1]).
Proof.
  assert (measure_by_latitude
            (toNumber (of_param (Some "0")), toNumber (of_param (Some "0")))
            (toNumber (get "latitude" unreadable_place),
             toNumber (get "longitude" unreadable_place))
          = Throw (Error "invalid coordinates")) as H by reflexivity.
  split; [exact H|].
  exact (unmeasurable_place_is_skipped toNumber measure_by_latitude
           (Some "0") (Some "0") [place "r1" 1 1] [place "r2" 2 1]
           unreadable_place (Error "invalid coordinates") H).
Defined.

(** ** The resolver and the model *)

(** X5.  One resolution sends at most one prompt to the model: none when the
    first branch answers, and exactly the prompt built from its arguments
    otherwise, whether the rest succeeds or fails. *)
Theorem resolver_asks_at_most_once
        gen str (query : option string) (menu : list MenuItem) (mealType : option string) :
  calls (Server.getPersonalizedRecommendations gen str query menu mealType)
  = match Server.exact_matches query menu with
    | Some _ => []
    | None => [Server.prompt_for str query menu mealType]
    end.
Proof.
  assert (calls (Server.try_block gen str query menu mealType)
          = match Server.exact_matches query menu with
            | Some _ => []
            | None => [Server.prompt_for str query menu mealType]
            end) as Hc.
  { unfold Server.try_block. destruct (Server.exact_matches query menu); [reflexivity|].
    unfold Server.ai_recommendations, Server.ask, bind. cbn [outcome calls].
    destruct (gen _) as [content|]; [|reflexivity].
    cbn [outcome calls lift].
    destruct (Json.parse (Server.clean content)) as [v|]; [|reflexivity].
    cbn [outcome calls].
    destruct (sort_by_relevance v) as [sorted|]; [|reflexivity].
    cbn [outcome calls].
    destruct (map_find menu sorted); reflexivity. }
  unfold Server.getPersonalizedRecommendations, try_catch.
  destruct (outcome (Server.try_block gen str query menu mealType)).
  - exact Hc.
  - rewrite catch_block_throws. cbn [calls throw]. rewrite app_nil_r. exact Hc.
Qed.

(** X6.  With a non-empty query the meal type plays no part: the resolver
    sends the same prompt, if any, and completes in the same way whatever
    the meal type. *)
Theorem meal_type_is_ignored_with_a_query
        gen str (q : string) (menu : list MenuItem) (m1 m2 : option string) :
  q <> EmptyString ->
  Server.getPersonalizedRecommendations gen str (Some q) menu m1
  = Server.getPersonalizedRecommendations gen str (Some q) menu m2.
Proof.
  intro Hq.
  assert (Server.prompt_for str (Some q) menu m1
          = Server.prompt_for str (Some q) menu m2) as Hp.
  { unfold Server.prompt_for. destruct q as [|c q]; [congruence|]. reflexivity. }
  unfold Server.getPersonalizedRecommendations, Server.try_block,
    Server.ai_recommendations.
  now rewrite Hp.
Qed.

Lemma meal_type_is_ignored_with_a_query_witness :
  "pizza" <> EmptyString
  /\ Server.getPersonalizedRecommendations (replying tied_candidates) no_stringify
       (Some "pizza") two_items (Some "breakfast")
     = Server.getPersonalizedRecommendations (replying tied_candidates) no_stringify
         (Some "pizza") two_items None.
Proof.
  assert ("pizza" <> EmptyString) as H by discriminate.
  split; [exact H|].
  exact (meal_type_is_ignored_with_a_query (replying tied_candidates) no_stringify
           "pizza" two_items (Some "breakfast") None H).
Defined.

Lemma map_find_length (menu : list MenuItem) (cs : list value) :
  forall found, map_find menu cs = Normal found -> List.length found = List.length cs.
Proof.
  induction cs as [|c cs IH]; cbn [map_find]; intros found H.
  - now injection H as <-.
  - destruct (find_item menu c); [|discriminate].
    destruct (map_find menu cs) as [l|]; [|discriminate].
    injection H as <-. cbn [List.length]. f_equal. now apply IH.
Qed.

Lemma present_length {A} (l : list (option A)) :
  List.length (present l) <= List.length l.
Proof.
  induction l as [|[a|] l IH]; cbn [present List.length]; lia.
Qed.

(** X7.  Past the first branch the resolver returns at most as many items as
    the reply has elements, whatever the elements are. *)
Theorem no_more_items_than_candidates
        gen str (query : option string) (menu : list MenuItem)
        (mealType : option string) (content : string) (elems : list value)
        (recs : list MenuItem) :
  Server.exact_matches query menu = None ->
  gen (Server.prompt_for str query menu mealType) = Normal content ->
  Json.parse (Server.clean content) = Normal (VArr elems) ->
  outcome (Server.getPersonalizedRecommendations gen str query menu mealType)
  = Normal recs ->
  List.length recs <= List.length elems.
Proof.
  intros Hfast Hgen Hparse H.
  apply resolver_returns_what_try_block_returns in H.
  unfold Server.try_block in H. rewrite Hfast in H.
  unfold Server.ai_recommendations, Server.ask in H.
  rewrite (bind_outcome_normal _ _ content) in H by exact Hgen.
  rewrite (lift_bind _ _ _ Hparse) in H.
  apply bind_normal in H as (sorted & Hsorted & H).
  apply bind_normal in H as (found & Hfound & H).
  cbn [outcome lift ret] in *. injection H as <-.
  assert (List.length sorted = List.length elems) as Hl.
  { unfold sort_by_relevance in Hsorted.
    destruct (_ && _); [discriminate|]. injection Hsorted as <-.
    symmetry. apply Permutation_length, sort_permutation. }
  rewrite <- Hl, <- (map_find_length menu sorted found Hfound).
  apply present_length.
Qed.

Lemma no_more_items_than_candidates_witness :
  Server.exact_matches None two_items = None
  /\ replying tied_candidates (Server.prompt_for no_stringify None two_items None)
     = Normal tied_candidates
  /\ Json.parse (Server.clean tied_candidates)
     = Normal (VArr [VObj [("id", VStr "2"); ("relevance", VNum (Num (binary64 0.5)))];
                     VObj [("id", VStr "9"); ("relevance", VNum (Num (binary64 0.9)))];
                     VObj [("id", VStr "1"); ("relevance", VNum (Num (binary64 0.5)))]])
  /\ List.length [item "2" "Chicken Wrap"; item "1" "Veg Burger"] <= 3.
Proof.
  assert (Json.parse (Server.clean tied_candidates)
          = Normal (VArr [VObj [("id", VStr "2"); ("relevance", VNum (Num (binary64 0.5)))];
                          VObj [("id", VStr "9"); ("relevance", VNum (Num (binary64 0.9)))];
                          VObj [("id", VStr "1"); ("relevance", VNum (Num (binary64 0.5)))]]))
    as Hp by (vm_compute; reflexivity).
  assert (outcome (Server.getPersonalizedRecommendations (replying tied_candidates)
                     no_stringify None two_items None)
          = Normal [item "2" "Chicken Wrap"; item "1" "Veg Burger"]) as Ho
      by (vm_compute; reflexivity).
  split; [reflexivity|]. split; [reflexivity|]. split; [exact Hp|].
  exact (no_more_items_than_candidates (replying tied_candidates) no_stringify
           None two_items None tied_candidates _ _ eq_refl eq_refl Hp Ho).
Defined.

Lemma toLowerCase_empty (s : string) :
  toLowerCase s = EmptyString -> s = EmptyString.
Proof.
  destruct s; [reflexivity|discriminate].
Qed.

(** X8.  Two queries that differ only in the case of their letters select the
    same items in the first branch. *)
Theorem exact_matches_ignore_case
        (q q' : string) (menu : list MenuItem) :
  toLowerCase q = toLowerCase q' ->
  Server.exact_matches (Some q) menu = Server.exact_matches (Some q') menu.
Proof.
  intro H. unfold Server.exact_matches.
  assert (truthy (VStr q) = truthy (VStr q')) as ->.
  { destruct q, q'; try reflexivity; discriminate. }
  assert (filter (matches q) menu = filter (matches q') menu) as ->.
  { apply filter_ext. intro it. unfold matches. now rewrite H. }
  reflexivity.
Qed.

Lemma exact_matches_ignore_case_witness :
  toLowerCase "BurGer" = toLowerCase "burger"
  /\ Server.exact_matches (Some "BurGer") two_items
     = Server.exact_matches (Some "burger") two_items.
Proof.
  split; [reflexivity|].
  exact (exact_matches_ignore_case "BurGer" "burger" two_items eq_refl).
Defined.

(** ** The handlers, in general *)

(** X9.  Once its validation has passed and the menu was read, the chat
    endpoint mirrors the resolver: status 200 with the resolver's sequence
    when it returns, and otherwise status 500 whose details are always the
    text of the reference error, never the failure that caused it.  It sends
    the prompts of the resolver and no other. *)
Theorem chat_mirrors_the_resolver
        gen str (req : Server.chat_body) (menu : list MenuItem) :
  truthy (of_param (Server.chat_message req))
  || truthy (of_param (Server.chat_mealType req)) = true ->
  let resolution :=
    Server.getPersonalizedRecommendations gen str
      (Server.chat_message req) menu (Server.chat_mealType req) in
  calls (Server.chat gen str req (Normal menu)) = calls resolution
  /\ ((exists recs,
          outcome resolution = Normal recs
          /\ outcome (Server.chat gen str req (Normal menu))
             = Normal (mkResponse 200 (Recommendations recs)))
      \/ (exists e,
             outcome resolution = Throw e
             /\ outcome (Server.chat gen str req (Normal menu))
                = Normal (mkResponse 500
                            (Failure "An error occurred while processing the chat."
                                     (Some "cleanedContent is not defined"))))).
Proof.
  intros Hgate resolution. unfold Server.chat.
  replace (negb (truthy (of_param (Server.chat_message req)))
           && negb (truthy (of_param (Server.chat_mealType req)))) with false
    by (rewrite <- negb_orb, Hgate; reflexivity).
  rewrite (lift_bind (Normal menu) _ menu eq_refl). fold resolution.
  unfold try_catch, bind.
  destruct (outcome resolution) as [recs|e] eqn:E; cbn [outcome calls ret].
  - split; [now rewrite app_nil_r|]. left. exists recs. now split.
  - split; [now rewrite app_nil_r|]. right. exists e. split; [reflexivity|].
    unfold resolution, Server.getPersonalizedRecommendations, try_catch in E.
    destruct (outcome (Server.try_block gen str (Server.chat_message req) menu
                         (Server.chat_mealType req))) eqn:Et.
    + rewrite Et in E. discriminate.
    + rewrite catch_block_throws in E. cbn in E. injection E as <-. reflexivity.
Qed.

Lemma chat_mirrors_the_resolver_witness :
  calls (Server.chat (replying "oops") no_stringify
           (Server.mkChat (Some "pizza") None) (Normal two_items))
  = calls (Server.getPersonalizedRecommendations (replying "oops") no_stringify
             (Some "pizza") two_items None)
  /\ ((exists recs,
          outcome (Server.getPersonalizedRecommendations (replying "oops") no_stringify
                     (Some "pizza") two_items None) = Normal recs
          /\ outcome (Server.chat (replying "oops") no_stringify
                        (Server.mkChat (Some "pizza") None) (Normal two_items))
             = Normal (mkResponse 200 (Recommendations recs)))
      \/ (exists e,
             outcome (Server.getPersonalizedRecommendations (replying "oops") no_stringify
                        (Some "pizza") two_items None) = Throw e
             /\ outcome (Server.chat (replying "oops") no_stringify
                           (Server.mkChat (Some "pizza") None) (Normal two_items))
                = Normal (mkResponse 500
                            (Failure "An error occurred while processing the chat."
                                     (Some "cleanedContent is not defined"))))).
Proof.
  exact (chat_mirrors_the_resolver (replying "oops") no_stringify
           (Server.mkChat (Some "pizza") None) two_items eq_refl).
Defined.

(** X10.  Without a location (either of [lat] and [lon] absent or empty) the
    personalized-recommendations endpoint never reads the places and never
    looks for [calculateDistance]: it sends the resolver's prompts and
    answers 200 with the resolver's sequence, or 500 when the resolver
    throws. *)
Theorem personalized_recommendations_without_a_location
        gen str calc (query mealType lat lon : option string)
        (menu : list MenuItem) (hotelsFetch : completion (list object)) :
  truthy (of_param lat) && truthy (of_param lon) = false ->
  let resolution :=
    Server.getPersonalizedRecommendations gen str query menu mealType in
  calls (Server.personalized_recommendations gen str calc query mealType lat lon
           (Normal menu) hotelsFetch)
  = calls resolution
  /\ outcome (Server.personalized_recommendations gen str calc query mealType lat lon
                (Normal menu) hotelsFetch)
     = Normal match outcome resolution with
              | Normal recs => mkResponse 200 (Items recs)
              | Throw _ =>
                  mkResponse 500
                    (Failure "Failed to fetch personalized recommendations" None)
              end.
Proof.
  intros Hloc resolution. unfold Server.personalized_recommendations.
  rewrite (lift_bind (Normal menu) _ menu eq_refl). fold resolution.
  rewrite Hloc. unfold try_catch, bind.
  destruct (outcome resolution) as [recs|e]; cbn [outcome calls ret];
    now rewrite ?app_nil_r.
Qed.

Lemma personalized_recommendations_without_a_location_witness :
  calls (Server.personalized_recommendations unreachable no_stringify no_distance
           (Some "burger") None (Some "12.9") None (Normal burger_menu)
           (Throw (Error "places unavailable")))
  = calls (Server.getPersonalizedRecommendations unreachable no_stringify
             (Some "burger") burger_menu None)
  /\ outcome (Server.personalized_recommendations unreachable no_stringify no_distance
                (Some "burger") None (Some "12.9") None (Normal burger_menu)
                (Throw (Error "places unavailable")))
     = Normal (mkResponse 200 (Items burger_menu)).
Proof.
  exact (personalized_recommendations_without_a_location
           unreachable no_stringify no_distance (Some "burger") None
           (Some "12.9") None burger_menu (Throw (Error "places unavailable"))
           eq_refl).
Defined.

Lemma for_each_returns {A} (f : A -> run A) (l : list A) :
  (forall a, In a l -> f a = ret a) -> Server.for_each f l = ret l.
Proof.
  induction l as [|x l IH]; intro H; [reflexivity|].
  cbn [Server.for_each]. rewrite (H x (or_introl eq_refl)), IH.
  - reflexivity.
  - intros a Ha. apply H. now right.
Qed.

(** X11.  With a location, when the places were read and no recommendation has
    a place with both coordinates, the endpoint answers 200 with the
    resolver's sequence unchanged; when the places cannot be read it answers
    500 although the recommendations were resolved. *)
Theorem personalized_recommendations_with_a_location
        gen str calc (query mealType : option string) (lat lon : string)
        (menu recs : list MenuItem) :
  lat <> EmptyString -> lon <> EmptyString ->
  outcome (Server.getPersonalizedRecommendations gen str query menu mealType)
  = Normal recs ->
  (forall restaurants,
      (forall it r, In it recs ->
                    find (fun r => strict_eq (get "id" r)
                                             (get "restaurantId" (fields it)))
                         restaurants = Some r ->
                    Server.has_coordinates r = false) ->
      outcome (Server.personalized_recommendations gen str calc query mealType
                 (Some lat) (Some lon) (Normal menu) (Normal restaurants))
      = Normal (mkResponse 200 (Items recs)))
  /\ (forall e,
         outcome (Server.personalized_recommendations gen str calc query mealType
                    (Some lat) (Some lon) (Normal menu) (Throw e))
         = Normal (mkResponse 500
                     (Failure "Failed to fetch personalized recommendations" None))).
Proof.
  intros Hlat Hlon Hrecs.
  destruct lat as [|c1 lat]; [congruence|].
  destruct lon as [|c2 lon]; [congruence|].
  split.
  - intros restaurants Hnone. unfold Server.personalized_recommendations.
    rewrite (lift_bind (Normal menu) _ menu eq_refl).
    cbn [of_param truthy andb].
    rewrite (try_catch_normal _ _ (json (Items recs)));
      rewrite (bind_outcome_normal _ _ recs Hrecs);
      rewrite (lift_bind (Normal restaurants) _ restaurants eq_refl);
      (rewrite for_each_returns; [reflexivity|]);
      intros it Hit; unfold Server.attach_distance;
      destruct (find _ restaurants) as [r|] eqn:Er; try reflexivity;
      now rewrite (Hnone it r Hit Er).
  - intro e. unfold Server.personalized_recommendations.
    rewrite (lift_bind (Normal menu) _ menu eq_refl).
    cbn [of_param truthy andb].
    rewrite (try_catch_throw _ _ e); [reflexivity|].
    rewrite (bind_outcome_normal _ _ recs Hrecs).
    reflexivity.
Qed.

Lemma personalized_recommendations_with_a_location_witness :
  outcome (Server.personalized_recommendations unreachable no_stringify no_distance
             (Some "soda") None (Some "12.9") (Some "77.5")
             (Normal [equator_item]) (Normal two_places))
  = Normal (mkResponse 200 (Items [equator_item]))
  /\ outcome (Server.personalized_recommendations unreachable no_stringify no_distance
                (Some "soda") None (Some "12.9") (Some "77.5")
                (Normal [equator_item]) (Throw (Error "places unavailable")))
     = Normal (mkResponse 500
                 (Failure "Failed to fetch personalized recommendations" None)).
Proof.
  assert ("12.9" <> EmptyString) as H1 by discriminate.
  assert ("77.5" <> EmptyString) as H2 by discriminate.
  pose proof (personalized_recommendations_with_a_location
                unreachable no_stringify no_distance (Some "soda") None
                "12.9" "77.5" [equator_item] [equator_item] H1 H2 eq_refl)
    as [Ha Hb].
  split.
  - apply (Ha two_places). intros it r [<-|[]] Hr.
    injection Hr as <-. reflexivity.
  - exact (Hb (Error "places unavailable")).
Defined.

(** X12.  When the menu cannot be read the model is never asked: the chat
    endpoint, once its validation has passed, answers 500 with the store's
    message as details, and the personalized-recommendations endpoint
    answers 500 with its fixed text. *)
Theorem failed_menu_read_asks_no_model
        gen str calc (req : Server.chat_body)
        (query mealType lat lon : option string)
        (hotelsFetch : completion (list object)) (e : error) :
  truthy (of_param (Server.chat_message req))
  || truthy (of_param (Server.chat_mealType req)) = true ->
  Server.chat gen str req (Throw e)
  = mkRun [] (Normal (mkResponse 500
                        (Failure "An error occurred while processing the chat."
                                 (Some (message e)))))
  /\ Server.personalized_recommendations gen str calc query mealType lat lon
       (Throw e) hotelsFetch
     = mkRun [] (Normal (mkResponse 500
                           (Failure "Failed to fetch personalized recommendations"
                                    None))).
Proof.
  intro Hgate. split; [|reflexivity].
  unfold Server.chat.
  replace (negb (truthy (of_param (Server.chat_message req)))
           && negb (truthy (of_param (Server.chat_mealType req)))) with false
    by (rewrite <- negb_orb, Hgate; reflexivity).
  reflexivity.
Qed.

Lemma failed_menu_read_asks_no_model_witness :
  Server.chat (replying six_candidates) no_stringify
    (Server.mkChat None (Some "lunch")) (Throw (Error "menu unavailable"))
  = mkRun [] (Normal (mkResponse 500
                        (Failure "An error occurred while processing the chat."
                                 (Some "menu unavailable"))))
  /\ Server.personalized_recommendations (replying six_candidates) no_stringify
       no_distance None (Some "lunch") None None
       (Throw (Error "menu unavailable")) (Normal two_places)
     = mkRun [] (Normal (mkResponse 500
                           (Failure "Failed to fetch personalized recommendations"
                                    None))).
Proof.
  exact (failed_menu_read_asks_no_model (replying six_candidates) no_stringify
           no_distance (Server.mkChat None (Some "lunch")) None (Some "lunch")
           None None (Normal two_places) (Error "menu unavailable") eq_refl).
Defined.

(** ** The earlier variant *)

Lemma variant_run
      gen str (query : option string) (menu : list MenuItem) (mealType : option string) :
  exists recs,
    Variant.getPersonalizedRecommendations gen str query menu mealType
    = mkRun [Variant.prompt_for str query menu mealType] (Normal recs).
Proof.
  destruct (variant_never_throws gen str query menu mealType) as [recs H].
  exists recs.
  pose proof (variant_always_asks gen str query menu mealType) as Hc.
  destruct (Variant.getPersonalizedRecommendations gen str query menu mealType)
    as [c o]. cbn [calls outcome] in *. now subst.
Qed.

(** X13.  The earlier variant's resolver asks the model exactly once and
    always returns a sequence, made of items of the menu: whatever the model
    does, nothing is thrown to the caller. *)
Theorem variant_resolver_always_returns
        gen str (query : option string) (menu : list MenuItem) (mealType : option string) :
  exists recs,
    Variant.getPersonalizedRecommendations gen str query menu mealType
    = mkRun [Variant.prompt_for str query menu mealType] (Normal recs)
    /\ incl recs menu.
Proof.
  destruct (variant_run gen str query menu mealType) as [recs H].
  exists recs. split; [exact H|].
  apply (f_equal outcome) in H. cbn [outcome] in H.
  unfold Variant.getPersonalizedRecommendations, try_catch in H.
  destruct (outcome (Variant.try_block gen str query menu mealType)) eqn:E.
  - rewrite E in H. injection H as ->.
    unfold Variant.try_block in E.
    apply bind_normal in E as (content & _ & E).
    apply bind_normal in E as (items & _ & E).
    apply bind_normal in E as (sorted & _ & E).
    apply bind_normal in E as (found & Hfound & E).
    cbn [outcome lift ret] in *. injection E as <-.
    intros m Hm. now apply (map_find_in menu sorted found).
  - cbn in H. injection H as <-. intros m [].
Qed.

(** X14.  The earlier variant's chat endpoint rejects a body without a
    non-empty message before asking anything.  With a message, once the
    model has answered it and the menu was read, the endpoint answers 200
    with that answer and a sequence of recommendations, whatever the model
    replies to the recommendation prompt; it asks the model exactly twice. *)
Theorem variant_chat_survives_the_model
        gen str (menuFetch : completion (list MenuItem)) :
  (forall text, truthy (of_param text) = false ->
                Variant.chat gen str text menuFetch
                = mkRun [] (Normal (Variant.mkChatResponse 500
                                      (Variant.ChatFailure
                                         "An error occurred while processing the chat."
                                         "Message is required"))))
  /\ (forall m reply menu,
         m <> EmptyString ->
         gen m = Normal reply ->
         menuFetch = Normal menu ->
         exists recs,
           Variant.chat gen str (Some m) menuFetch
           = mkRun [m; Variant.prompt_for str (Some m) menu None]
                   (Normal (Variant.mkChatResponse 200 (Variant.Reply reply recs)))).
Proof.
  split.
  - intros text H. unfold Variant.chat. now rewrite H.
  - intros m reply menu Hm Hgen ->.
    destruct (variant_run gen str (Some m) menu None) as [recs Hrecs].
    exists recs. unfold Variant.chat.
    destruct m as [|c m]; [congruence|]. cbn [of_param truthy negb].
    unfold Variant.ask, try_catch, bind. cbn [outcome calls].
    rewrite Hgen. cbn [outcome calls lift]. rewrite Hrecs. reflexivity.
Qed.

Lemma variant_chat_survives_the_model_witness :
  Variant.chat (replying "oops") no_stringify (Some EmptyString) (Normal two_items)
  = mkRun [] (Normal (Variant.mkChatResponse 500
                        (Variant.ChatFailure
                           "An error occurred while processing the chat."
                           "Message is required")))
  /\ exists recs,
      Variant.chat (replying "oops") no_stringify (Some "pizza") (Normal two_items)
      = mkRun ["pizza"; Variant.prompt_for no_stringify (Some "pizza") two_items None]
              (Normal (Variant.mkChatResponse 200 (Variant.Reply "oops" recs))).
Proof.
  pose proof (variant_chat_survives_the_model (replying "oops") no_stringify
                (Normal two_items)) as [Ha Hb].
  split.
  - exact (Ha (Some EmptyString) eq_refl).
  - assert ("pizza" <> EmptyString) as Hm by discriminate.
    exact (Hb "pizza" "oops" two_items Hm eq_refl eq_refl).
Defined.

(** X15.  The earlier variant's personalized-recommendations endpoint answers
    200 with a sequence whenever the menu was read, whatever the model
    does. *)
Theorem variant_personalized_recommendations_always_answer
        gen str (query mealType : option string) (menu : list MenuItem) :
  exists recs,
    Variant.personalized_recommendations gen str query mealType (Normal menu)
    = mkRun [Variant.prompt_for str query menu mealType]
            (Normal (mkResponse 200 (Items recs))).
Proof.
  destruct (variant_run gen str query menu mealType) as [recs Hrecs].
  exists recs. unfold Variant.personalized_recommendations.
  rewrite (lift_bind (Normal menu) _ menu eq_refl).
  unfold try_catch, bind. rewrite Hrecs. reflexivity.
Qed.

(** ** Documents *)






(** ** Facts about strings *)

Lemma append_empty_r (s : string) : s ++ EmptyString = s.
Proof.
  induction s as [|c s IH]; cbn; [reflexivity|now rewrite IH].
Qed.

Lemma append_associative (a b c : string) : (a ++ b) ++ c = a ++ b ++ c.
Proof.
  induction a as [|x a IH]; cbn; [reflexivity|now rewrite IH].
Qed.

Lemma list_of_append (a b : string) :
  list_ascii_of_string (a ++ b)
  = (list_ascii_of_string a ++ list_ascii_of_string b)%list.
Proof.
  induction a as [|x a IH]; cbn; [reflexivity|now rewrite IH].
Qed.

Lemma string_of_app (x y : list ascii) :
  string_of_list_ascii (x ++ y)%list
  = string_of_list_ascii x ++ string_of_list_ascii y.
Proof.
  induction x as [|c x IH]; cbn; [reflexivity|now rewrite IH].
Qed.

Lemma reverse_involutive (s : string) : reverse (reverse s) = s.
Proof.
  unfold reverse.
  now rewrite list_ascii_of_string_of_list_ascii, rev_involutive,
    string_of_list_ascii_of_string.
Qed.

Lemma reverse_append (a b : string) : reverse (a ++ b) = reverse b ++ reverse a.
Proof.
  unfold reverse. now rewrite list_of_append, rev_app_distr, string_of_app.
Qed.

Lemma all_spaces_list (s : string) :
  all_spaces s = forallb is_space (list_ascii_of_string s).
Proof.
  induction s as [|c s IH]; cbn; [reflexivity|now rewrite IH].
Qed.

Lemma all_spaces_reverse (s : string) : all_spaces (reverse s) = all_spaces s.
Proof.
  rewrite !all_spaces_list. unfold reverse.
  rewrite list_ascii_of_string_of_list_ascii.
  induction (list_ascii_of_string s) as [|c l IH]; [reflexivity|].
  cbn [rev forallb]. rewrite forallb_app, IH. cbn [forallb].
  rewrite andb_true_r. apply andb_comm.
Qed.

Lemma skip_spaces_split (s : string) :
  exists l, s = l ++ skip_spaces s /\ all_spaces l = true.
Proof.
  induction s as [|c s (l & Hs & Hl)]; [now exists EmptyString|].
  cbn [skip_spaces]. destruct (is_space c) eqn:E.
  - exists (String c l). cbn. rewrite E, Hl. split; [now rewrite <- Hs|reflexivity].
  - now exists EmptyString.
Qed.

(** Trimming removes a run of spaces on each side and nothing else. *)
Lemma trim_split (s : string) :
  exists l r, s = l ++ trim s ++ r /\ all_spaces l = true /\ all_spaces r = true.
Proof.
  destruct (skip_spaces_split s) as (l & Hs & Hl).
  destruct (skip_spaces_split (reverse (skip_spaces s))) as (r & Hr & Hrs).
  exists l, (reverse r). split; [|split; [exact Hl|now rewrite all_spaces_reverse]].
  unfold trim. rewrite <- reverse_append, <- Hr, reverse_involutive. exact Hs.
Qed.

Lemma skip_spaces_last (c : ascii) (l : list ascii) :
  is_space c = false ->
  exists l', skip_spaces (string_of_list_ascii (l ++ [c])%list)
             = string_of_list_ascii (l' ++ [c])%list.
Proof.
  intro Hc. induction l as [|x l (l' & IH)].
  - exists []. cbn. now rewrite Hc.
  - cbn [app string_of_list_ascii skip_spaces]. destruct (is_space x).
    + now exists l'.
    + now exists (x :: l).
Qed.

(** Trimming keeps a first character that is not a space. *)
Lemma trim_keeps_head (c : ascii) (s : string) :
  is_space c = false -> exists s', trim (String c s) = String c s'.
Proof.
  intro Hc. unfold trim. cbn [skip_spaces]. rewrite Hc.
  unfold reverse at 2. cbn [list_ascii_of_string rev].
  destruct (skip_spaces_last c (rev (list_ascii_of_string s)) Hc) as (l' & ->).
  unfold reverse. rewrite list_ascii_of_string_of_list_ascii, rev_app_distr.
  cbn [rev app string_of_list_ascii]. now eexists.
Qed.

(** ** Facts about the cleaning step *)

Lemma fence_not_at_plain (t x : string) :
  no_backtick t = true -> String.prefix fence x = false ->
  String.prefix fence (t ++ x) = false.
Proof.
  intros Ht Hx. destruct t as [|c t]; [exact Hx|].
  cbn in Ht. apply andb_true_iff in Ht as [Hc _].
  unfold fence. cbn [append String.prefix].
  destruct (ascii_dec "`" c) as [<-|_]; [discriminate|reflexivity].
Qed.

Lemma no_delimiter_at (c : ascii) (rest : string) :
  Ascii.eqb c "`" = false -> String.prefix fence rest = false ->
  find (fun d => String.prefix d (String c rest)) delimiters = None.
Proof.
  intros Hc Hrest. unfold delimiters, fence, LF in *.
  cbn [find append String.prefix].
  destruct (ascii_dec "`" c) as [<-|_]; [discriminate|].
  destruct (ascii_dec "010" c) as [_|_]; [|reflexivity].
  now rewrite Hrest.
Qed.

(** A stretch of text without backticks goes through the cleaning step
    unchanged, unless a fence follows it. *)
Lemma remove_delimiters_plain (t x : string) :
  no_backtick t = true -> String.prefix fence x = false ->
  remove_delimiters 0 (t ++ x) = t ++ remove_delimiters 0 x.
Proof.
  intros Ht Hx. induction t as [|c t IH]; [reflexivity|].
  cbn in Ht. apply andb_true_iff in Ht as [Hc Ht].
  apply negb_true_iff in Hc.
  cbn [append remove_delimiters].
  rewrite (no_delimiter_at c (t ++ x) Hc (fence_not_at_plain t x Ht Hx)).
  now rewrite (IH Ht).
Qed.

Lemma clean_plain (t : string) : no_backtick t = true -> Server.clean t = trim t.
Proof.
  intro Ht. unfold Server.clean.
  rewrite <- (append_empty_r t) at 1.
  rewrite (remove_delimiters_plain t EmptyString Ht eq_refl).
  cbn [remove_delimiters]. now rewrite append_empty_r.
Qed.

Lemma prefix_append (d s : string) : String.prefix d (d ++ s) = true.
Proof.
  induction d as [|c d IH]; cbn [append String.prefix].
  - now destruct s.
  - destruct (ascii_dec c c) as [_|H]; [exact IH|now destruct H].
Qed.

(** An opening fence with its tag and line feed is removed. *)
Lemma remove_opening_fence (x : string) :
  remove_delimiters 0 (fence ++ "json" ++ LF ++ x) = remove_delimiters 0 x
  /\ remove_delimiters 0 (fence ++ "JSON" ++ LF ++ x) = remove_delimiters 0 x.
Proof.
  split.
  - change (fence ++ "json" ++ LF ++ x) with (String "`" ("``json" ++ LF ++ x)).
    cbn [remove_delimiters].
    assert (find (fun d => String.prefix d (String "`" ("``json" ++ LF ++ x))) delimiters
            = Some (fence ++ "json" ++ LF)) as ->.
    { unfold delimiters. cbn [find].
      change (String "`" ("``json" ++ LF ++ x)) with ((fence ++ "json" ++ LF) ++ x).
      now rewrite (prefix_append (fence ++ "json" ++ LF) x). }
    reflexivity.
  - change (fence ++ "JSON" ++ LF ++ x) with (String "`" ("``JSON" ++ LF ++ x)).
    cbn [remove_delimiters].
    assert (find (fun d => String.prefix d (String "`" ("``JSON" ++ LF ++ x))) delimiters
            = Some (fence ++ "JSON" ++ LF)) as ->.
    { unfold delimiters. cbn [find].
      change (String "`" ("``JSON" ++ LF ++ x)) with ((fence ++ "JSON" ++ LF) ++ x).
      rewrite (prefix_append (fence ++ "JSON" ++ LF) x).
      reflexivity. }
    reflexivity.
Qed.

Lemma clean_tagged (t : string) :
  no_backtick t = true ->
  Server.clean (tagged t) = trim t /\ Server.clean (tagged_upper t) = trim t.
Proof.
  intro Ht. unfold Server.clean.
  assert (remove_delimiters 0 (t ++ LF ++ fence) = t) as H.
  { rewrite (remove_delimiters_plain t (LF ++ fence) Ht eq_refl).
    change (remove_delimiters 0 (LF ++ fence)) with EmptyString.
    apply append_empty_r. }
  destruct (remove_opening_fence (t ++ LF ++ fence)) as [H1 H2].
  unfold tagged, tagged_upper. now rewrite H1, H2, H.
Qed.

Lemma clean_untagged (t : string) :
  exists s, Server.clean (untagged t) = String "`" s.
Proof.
  unfold Server.clean, untagged.
  change (remove_delimiters 0 (fence ++ LF ++ t ++ LF ++ fence))
    with (String "`" (remove_delimiters 0 ("``" ++ LF ++ t ++ LF ++ fence))).
  now apply trim_keeps_head.
Qed.

(** ** Facts about the parser and blank space *)

Lemma ws_facts (w : ascii) :
  Json.is_ws w = true ->
  Json.lex_idle w = Some (Json.LIdle, [])
  /\ Json.is_word_char w = false
  /\ Ascii.eqb w "034" = false
  /\ Ascii.eqb w "\" = false
  /\ Json.escape w = None
  /\ Ascii.eqb w "u" = false
  /\ Json.hex_value w = None.
Proof.
  destruct w as [[] [] [] [] [] [] [] []]; intro H;
    vm_compute in H; try discriminate H; repeat split; reflexivity.
Qed.

Lemma other_space_facts (w : ascii) :
  is_space w = true -> Json.is_ws w = false ->
  Json.lex_idle w = None
  /\ Json.is_word_char w = false
  /\ Ascii.eqb w "034" = false
  /\ Ascii.eqb w "\" = false
  /\ (nat_of_ascii w <? 32)%nat = true
  /\ Json.escape w = None
  /\ Ascii.eqb w "u" = false
  /\ Json.hex_value w = None.
Proof.
  destruct w as [[] [] [] [] [] [] [] []]; intros H1 H2;
    vm_compute in H1; try discriminate H1;
    vm_compute in H2; try discriminate H2; repeat split; reflexivity.
Qed.

Lemma lex_ws_head (w : ascii) (cs : list ascii) :
  Json.is_ws w = true -> Json.lex Json.LIdle (w :: cs) = Json.lex Json.LIdle cs.
Proof.
  intro Hw. destruct (ws_facts w Hw) as (Hidle & _).
  cbn [Json.lex]. rewrite Hidle. now destruct (Json.lex Json.LIdle cs).
Qed.

Lemma lex_other_space_head (w : ascii) (cs : list ascii) :
  is_space w = true -> Json.is_ws w = false -> Json.lex Json.LIdle (w :: cs) = None.
Proof.
  intros H1 H2. destruct (other_space_facts w H1 H2) as (Hidle & _).
  cbn [Json.lex]. now rewrite Hidle.
Qed.

Lemma lex_ws_last (w : ascii) :
  Json.is_ws w = true ->
  forall cs m, Json.lex m (cs ++ [w])%list = Json.lex m cs.
Proof.
  intro Hw.
  destruct (ws_facts w Hw) as (Hidle & Hword & Hq & Hb & Hesc & Hu & Hhex).
  induction cs as [|c cs IH]; intro m; cbn [app Json.lex]; destruct m.
  - now rewrite Hidle.
  - rewrite Hword, Hidle. now destruct (Json.word_token _).
  - rewrite Hq, Hb. now destruct (nat_of_ascii w <? 32)%nat.
  - now rewrite Hesc, Hu.
  - now rewrite Hhex.
  - destruct (Json.lex_idle c) as [[m' ts]|]; [now rewrite IH|reflexivity].
  - destruct (Json.is_word_char c); [apply IH|].
    destruct (Json.word_token _), (Json.lex_idle c) as [[m' ts]|];
      try reflexivity. now rewrite IH.
  - destruct (Ascii.eqb c "034"); [now rewrite IH|].
    destruct (Ascii.eqb c "\"); [apply IH|].
    destruct (nat_of_ascii c <? 32)%nat; [reflexivity|apply IH].
  - destruct (Json.escape c); [apply IH|].
    destruct (Ascii.eqb c "u"); [apply IH|reflexivity].
  - destruct (Json.hex_value c); [|reflexivity].
    destruct (List.length (hex ++ [c]) =? 4)%nat; apply IH.
Qed.

Lemma lex_other_space_last (w : ascii) :
  is_space w = true -> Json.is_ws w = false ->
  forall cs m, Json.lex m (cs ++ [w])%list = None.
Proof.
  intros H1 H2.
  destruct (other_space_facts w H1 H2)
    as (Hidle & Hword & Hq & Hb & Hlow & Hesc & Hu & Hhex).
  induction cs as [|c cs IH]; intro m; cbn [app Json.lex]; destruct m.
  - now rewrite Hidle.
  - rewrite Hword, Hidle. now destruct (Json.word_token _).
  - now rewrite Hq, Hb, Hlow.
  - now rewrite Hesc, Hu.
  - now rewrite Hhex.
  - destruct (Json.lex_idle c) as [[m' ts]|]; [now rewrite IH|reflexivity].
  - destruct (Json.is_word_char c); [apply IH|].
    destruct (Json.word_token _), (Json.lex_idle c) as [[m' ts]|];
      try reflexivity. now rewrite IH.
  - destruct (Ascii.eqb c "034"); [now rewrite IH|].
    destruct (Ascii.eqb c "\"); [apply IH|].
    destruct (nat_of_ascii c <? 32)%nat; [reflexivity|apply IH].
  - destruct (Json.escape c); [apply IH|].
    destruct (Ascii.eqb c "u"); [apply IH|reflexivity].
  - destruct (Json.hex_value c); [|reflexivity].
    destruct (List.length (hex ++ [c]) =? 4)%nat; apply IH.
Qed.

Lemma lex_strip_head (l cs : list ascii) :
  forallb is_space l = true ->
  Json.lex Json.LIdle (l ++ cs)%list <> None ->
  Json.lex Json.LIdle (l ++ cs)%list = Json.lex Json.LIdle cs.
Proof.
  induction l as [|w l IH]; intros Hl Hlex; [reflexivity|].
  cbn [forallb] in Hl. apply andb_true_iff in Hl as [Hw Hl].
  cbn [app] in *. destruct (Json.is_ws w) eqn:E.
  - rewrite (lex_ws_head w _ E) in *. now apply IH.
  - now rewrite (lex_other_space_head w _ Hw E) in Hlex.
Qed.

Lemma lex_strip_tail (r cs : list ascii) :
  forallb is_space r = true ->
  Json.lex Json.LIdle (cs ++ r)%list <> None ->
  Json.lex Json.LIdle (cs ++ r)%list = Json.lex Json.LIdle cs.
Proof.
  induction r as [|w r IH] using rev_ind; intros Hr Hlex.
  - now rewrite app_nil_r.
  - rewrite forallb_app in Hr. apply andb_true_iff in Hr as [Hr Hw].
    cbn [forallb] in Hw. rewrite andb_true_r in Hw.
    rewrite app_assoc in *. destruct (Json.is_ws w) eqn:E.
    + rewrite (lex_ws_last w E) in *. now apply IH.
    + now rewrite (lex_other_space_last w Hw E) in Hlex.
Qed.

(** A text that parses still parses, to the same value, once the blank space
    around it is removed. *)
Lemma parse_strip (l core r : string) (v : value) :
  all_spaces l = true -> all_spaces r = true ->
  Json.parse (l ++ core ++ r) = Normal v -> Json.parse core = Normal v.
Proof.
  intros Hl Hr. rewrite all_spaces_list in Hl, Hr.
  unfold Json.parse. rewrite !list_of_append.
  set (L := list_ascii_of_string l) in *.
  set (C := list_ascii_of_string core).
  set (R := list_ascii_of_string r) in *.
  intro H.
  assert (Json.lex Json.LIdle (L ++ C ++ R)%list <> None) as Hne
      by (intro E; rewrite E in H; discriminate).
  pose proof (lex_strip_head L (C ++ R)%list Hl Hne) as E1.
  rewrite E1 in H. rewrite E1 in Hne.
  now rewrite (lex_strip_tail R C Hr Hne) in H.
Qed.

Lemma parse_trim (t : string) (v : value) :
  Json.parse t = Normal v -> Json.parse (trim t) = Normal v.
Proof.
  destruct (trim_split t) as (l & r & Ht & Hl & Hr).
  intro H. rewrite Ht in H. now apply (parse_strip l (trim t) r v).
Qed.

Lemma parse_backtick (s : string) :
  Json.parse (String "`" s) = Throw (SyntaxError "Unexpected token in JSON").
Proof. reflexivity. Qed.

(** ** Extraction of the reply, in general *)

(** X17.  For every text without a backtick that parses, the cleaning step of
    the deployed resolver followed by the parser gives the value of the
    text, whether the reply is the text itself, or the text in a fenced
    block tagged [json] or [JSON]. *)
Theorem tagged_and_bare_replies_are_extracted (t : string) (v : value) :
  no_backtick t = true ->
  Json.parse t = Normal v ->
  Json.parse (Server.clean t) = Normal v
  /\ Json.parse (Server.clean (tagged t)) = Normal v
  /\ Json.parse (Server.clean (tagged_upper t)) = Normal v.
Proof.
  intros Ht Hv. destruct (clean_tagged t Ht) as [H1 H2].
  rewrite (clean_plain t Ht), H1, H2.
  repeat split; now apply parse_trim.
Qed.

Lemma tagged_and_bare_replies_are_extracted_witness :
  no_backtick six_candidates = true
  /\ Json.parse (Server.clean six_candidates) = Json.parse six_candidates
  /\ Json.parse (Server.clean (tagged six_candidates)) = Json.parse six_candidates
  /\ Json.parse (Server.clean (tagged_upper six_candidates)) = Json.parse six_candidates.
Proof.
  assert (no_backtick six_candidates = true) as H1 by reflexivity.
  split; [exact H1|].
  exact (tagged_and_bare_replies_are_extracted six_candidates _ H1 eq_refl).
Defined.

(** X18.  No reply in an untagged fenced block gets through the deployed
    resolver: whatever the block holds, the cleaned text still starts with
    the fence, the parser rejects it, and past the first branch the resolver
    throws. *)
Theorem untagged_replies_always_fail
        gen str (query : option string) (menu : list MenuItem)
        (mealType : option string) (t : string) :
  Json.parse (Server.clean (untagged t))
  = Throw (SyntaxError "Unexpected token in JSON")
  /\ (Server.exact_matches query menu = None ->
      gen (Server.prompt_for str query menu mealType) = Normal (untagged t) ->
      outcome (Server.getPersonalizedRecommendations gen str query menu mealType)
      = Throw (ReferenceError "cleanedContent")).
Proof.
  destruct (clean_untagged t) as [s Hs].
  assert (Json.parse (Server.clean (untagged t))
          = Throw (SyntaxError "Unexpected token in JSON")) as Hp
      by (rewrite Hs; apply parse_backtick).
  split; [exact Hp|].
  intros Hfast Hgen.
  apply (resolver_throws_when_try_block_throws gen str query menu mealType
           (SyntaxError "Unexpected token in JSON")).
  unfold Server.try_block. rewrite Hfast.
  unfold Server.ai_recommendations, Server.ask.
  rewrite (bind_outcome_normal _ _ (untagged t)) by exact Hgen.
  apply bind_outcome_throw. exact Hp.
Qed.

Lemma untagged_replies_always_fail_witness :
  Json.parse (Server.clean (untagged six_candidates))
  = Throw (SyntaxError "Unexpected token in JSON")
  /\ outcome (Server.getPersonalizedRecommendations
                (replying (untagged six_candidates)) no_stringify None six_items None)
     = Throw (ReferenceError "cleanedContent").
Proof.
  pose proof (untagged_replies_always_fail (replying (untagged six_candidates))
                no_stringify None six_items None six_candidates) as [Ha Hb].
  split; [exact Ha|exact (Hb eq_refl eq_refl)].
Defined.

(** ** The earlier variant's extraction *)

Lemma closing_fence_after_spaces (u : string) :
  no_backtick u = true ->
  String.prefix fence (skip_spaces (u ++ LF ++ fence)) = true ->
  all_spaces u = true.
Proof.
  intros Hu. induction u as [|c u IH]; [reflexivity|].
  cbn in Hu. apply andb_true_iff in Hu as [Hc Hu].
  cbn [append skip_spaces all_spaces]. destruct (is_space c); [exact (IH Hu)|].
  unfold fence. cbn [String.prefix].
  destruct (ascii_dec "`" c) as [<-|_]; discriminate.
Qed.

Lemma up_to_closing_fence_plain (u : string) :
  no_backtick u = true ->
  exists core r,
    up_to_closing_fence (u ++ LF ++ fence) = Some core
    /\ u = core ++ r /\ all_spaces r = true.
Proof.
  intro Hu. induction u as [|c u IH].
  - exists EmptyString, EmptyString. now split.
  - pose proof Hu as Hu'. cbn in Hu'. apply andb_true_iff in Hu' as [_ Hu'].
    cbn [append up_to_closing_fence].
    destruct (String.prefix fence (skip_spaces (String c (u ++ LF ++ fence)))) eqn:E.
    + exists EmptyString, (String c u). split; [reflexivity|]. split; [reflexivity|].
      now apply closing_fence_after_spaces.
    + destruct (IH Hu') as (core & r & -> & Hcore & Hr).
      exists (String c core), r. cbn. split; [reflexivity|].
      split; [now rewrite <- Hcore|exact Hr].
Qed.

Lemma fenced_contents_plain (t : string) :
  no_backtick t = true ->
  exists l core r,
    up_to_closing_fence (skip_spaces (t ++ LF ++ fence)) = Some core
    /\ t = l ++ core ++ r /\ all_spaces l = true /\ all_spaces r = true.
Proof.
  intro Ht. induction t as [|c t IH].
  - exists EmptyString, EmptyString, EmptyString. now repeat split.
  - pose proof Ht as Ht'. cbn in Ht'. apply andb_true_iff in Ht' as [_ Ht'].
    cbn [append skip_spaces]. destruct (is_space c) eqn:E.
    + destruct (IH Ht') as (l & core & r & H & Hsplit & Hl & Hr).
      exists (String c l), core, r. cbn. rewrite E, Hl.
      repeat split; try assumption. now rewrite <- Hsplit.
    + destruct (up_to_closing_fence_plain (String c t) Ht) as (core & r & H & Hs & Hr).
      exists EmptyString, core, r. now repeat split.
Qed.

Lemma fenced_block_of_wrappings (t : string) :
  fenced_block (tagged t) = up_to_closing_fence (skip_spaces (t ++ LF ++ fence))
  /\ fenced_block (untagged t) = up_to_closing_fence (skip_spaces (t ++ LF ++ fence)).
Proof.
  split; reflexivity.
Qed.

(** X19.  For every text without a backtick that parses, the earlier variant
    extracts the value of the text from the text itself and from both of
    its fenced wrappings, tagged and untagged. *)
Theorem variant_extracts_every_wrapping (t : string) (v : value) :
  no_backtick t = true ->
  Json.parse t = Normal v ->
  Variant.extract t = Normal v
  /\ Variant.extract (tagged t) = Normal v
  /\ Variant.extract (untagged t) = Normal v.
Proof.
  intros Ht Hv.
  destruct (fenced_contents_plain t Ht) as (l & core & r & H & Hsplit & Hl & Hr).
  assert (Json.parse core = Normal v) as Hcore
      by (apply (parse_strip l core r v Hl Hr); now rewrite <- Hsplit).
  destruct (fenced_block_of_wrappings t) as [H1 H2].
  unfold Variant.extract. rewrite Hv, H1, H2, H.
  split; [reflexivity|].
  split; [change (tagged t) with (String "`" ("``json" ++ LF ++ t ++ LF ++ fence))
         |change (untagged t) with (String "`" ("``" ++ LF ++ t ++ LF ++ fence))];
    now rewrite parse_backtick.
Qed.

Lemma variant_extracts_every_wrapping_witness :
  no_backtick six_candidates = true
  /\ Variant.extract six_candidates = Json.parse six_candidates
  /\ Variant.extract (tagged six_candidates) = Json.parse six_candidates
  /\ Variant.extract (untagged six_candidates) = Json.parse six_candidates.
Proof.
  assert (no_backtick six_candidates = true) as H1 by reflexivity.
  split; [exact H1|].
  exact (variant_extracts_every_wrapping six_candidates _ H1 eq_refl).
Defined.

(** ** Literals and doubles *)

(** Two literals that denote the same double, or that both overflow, carry
    the same relevance, and the candidates keep the order of the reply;
    literals one unit in the last place apart are told apart. *)
Lemma equal_doubles_keep_reply_order :
  outcome (Server.getPersonalizedRecommendations (replying same_double_candidates)
             no_stringify None two_items None)
  = Normal [item "1" "Veg Burger"; item "2" "Chicken Wrap"]
  /\ outcome (Server.getPersonalizedRecommendations (replying overflowing_candidates)
                no_stringify None two_items None)
     = Normal [item "1" "Veg Burger"; item "2" "Chicken Wrap"]
  /\ outcome (Server.getPersonalizedRecommendations
                (replying (dq "[{'id':'1','relevance':0.3},{'id':'2','relevance':0.30000000000000004}]"))
                no_stringify None two_items None)
     = Normal [item "2" "Chicken Wrap"; item "1" "Veg Burger"]
  /\ outcome (Server.getPersonalizedRecommendations
                (replying (dq "[{'id':'1','relevance':1.7976931348623157e308},{'id':'2','relevance':1e400}]"))
                no_stringify None two_items None)
     = Normal [item "2" "Chicken Wrap"; item "1" "Veg Burger"].
Proof.
  repeat split; vm_compute; reflexivity.
Qed.
